(** * miniwavesurferjs: the WaveSurfer facade ([src/wavesurfer.js])

    A shallow embedding of the facade class of [src/wavesurfer.js] and the
    properties of its configuration checks, seeking, skipping, loading and
    [drawBuffer].

    Conventions of the embedding.
    - A JavaScript number is a [JS.number]: [NaN], the two infinities, or a
      finite value.  Finite doubles are idealised as exact rationals in
      canonical form ([Qc]); there is no negative zero (it behaves as [0] in
      every test the facade performs).  A product or quotient that the code
      computes is named in the statements by the same expression, [JS.mul]
      or [JS.div]; beyond that the statements give bounds, which rounding to
      the nearest double preserves.  No statement says that [(x / d) * d] is
      [x] or that [(q * x) / x] is [q]: that holds of the rationals, not of
      doubles.
    - A field that holds a number or [undefined] is an [option JS.number].
    - A method of the class is a computation in the monad [M]: it takes the
      instance, and gives back the instance as the method left it together
      with either a result or the exception it raised.  A [throw] keeps the
      mutations that were done before it.
    - Calls into collaborators whose code is not part of [wavesurfer.js]
      (the drawer, the observer's [fireEvent], the console, the DOM) are
      recorded, in order, in the instance's [log]. *)

From Stdlib Require Import ZArith QArith Qcanon Qround Qreduction.
From Stdlib Require Import List String Bool Lia Lqa.
Import ListNotations.

Set Implicit Arguments.

(** ** JavaScript numbers and values *)

Module JS.

Inductive number : Type :=
| NaN
| PosInf
| NegInf
| Fin (q : Qc).

Definition of_Q (q : Q) : number := Fin (Q2Qc q).
Definition of_Z (z : Z) : number := of_Q (inject_Z z).

Definition zero : number := of_Z 0.
Definition one : number := of_Z 1.

Definition Qc_ltb (a b : Qc) : bool :=
  match Qccompare a b with Lt => true | _ => false end.
Definition Qc_leb (a b : Qc) : bool :=
  match Qccompare a b with Gt => false | _ => true end.
Definition Qc_eqb (a b : Qc) : bool :=
  match Qccompare a b with Eq => true | _ => false end.

(** [sgn] of an infinity: [true] for the positive one. *)
Definition inf (positive : bool) : number :=
  if positive then PosInf else NegInf.

(** [a * b] *)
Definition mul (a b : number) : number :=
  match a, b with
  | NaN, _ | _, NaN => NaN
  | Fin x, Fin y => Fin (x * y)%Qc
  | PosInf, PosInf | NegInf, NegInf => PosInf
  | PosInf, NegInf | NegInf, PosInf => NegInf
  | PosInf, Fin y | Fin y, PosInf =>
      match Qccompare y (Q2Qc 0) with Eq => NaN | Gt => PosInf | Lt => NegInf end
  | NegInf, Fin y | Fin y, NegInf =>
      match Qccompare y (Q2Qc 0) with Eq => NaN | Gt => NegInf | Lt => PosInf end
  end.

(** [a + b] *)
Definition add (a b : number) : number :=
  match a, b with
  | NaN, _ | _, NaN => NaN
  | Fin x, Fin y => Fin (x + y)%Qc
  | PosInf, NegInf | NegInf, PosInf => NaN
  | PosInf, _ | _, PosInf => PosInf
  | NegInf, _ | _, NegInf => NegInf
  end.

(** [- a] *)
Definition neg (a : number) : number :=
  match a with
  | NaN => NaN
  | PosInf => NegInf
  | NegInf => PosInf
  | Fin x => Fin (- x)%Qc
  end.

(** [a / b] *)
Definition div (a b : number) : number :=
  match a, b with
  | NaN, _ | _, NaN => NaN
  | Fin x, Fin y =>
      match Qccompare y (Q2Qc 0) with
      | Eq =>
          match Qccompare x (Q2Qc 0) with
          | Eq => NaN | Gt => PosInf | Lt => NegInf
          end
      | _ => Fin (x / y)%Qc
      end
  | Fin _, PosInf | Fin _, NegInf => zero
  | PosInf, PosInf | PosInf, NegInf | NegInf, PosInf | NegInf, NegInf => NaN
  | PosInf, Fin y =>
      match Qccompare y (Q2Qc 0) with Lt => NegInf | _ => PosInf end
  | NegInf, Fin y =>
      match Qccompare y (Q2Qc 0) with Lt => PosInf | _ => NegInf end
  end.

(** [a < b] *)
Definition ltb (a b : number) : bool :=
  match a, b with
  | NaN, _ | _, NaN => false
  | Fin x, Fin y => Qc_ltb x y
  | NegInf, NegInf => false
  | NegInf, _ => true
  | _, NegInf => false
  | PosInf, _ => false
  | _, PosInf => true
  end.

(** [a <= b] *)
Definition leb (a b : number) : bool :=
  match a, b with
  | NaN, _ | _, NaN => false
  | Fin x, Fin y => Qc_leb x y
  | NegInf, _ => true
  | _, NegInf => false
  | _, PosInf => true
  | PosInf, _ => false
  end.

(** [a > b] and [a >= b] are [b < a] and [b <= a]. *)
Definition gtb (a b : number) : bool := ltb b a.
Definition geb (a b : number) : bool := leb b a.

(** [a == b] on numbers; [a != b] is its negation. *)
Definition eqb (a b : number) : bool :=
  match a, b with
  | NaN, _ | _, NaN => false
  | Fin x, Fin y => Qc_eqb x y
  | PosInf, PosInf | NegInf, NegInf => true
  | _, _ => false
  end.
Definition neqb (a b : number) : bool := negb (eqb a b).

(** [isFinite(a)] on a number *)
Definition isFinite (a : number) : bool :=
  match a with Fin _ => true | _ => false end.

(** Truthiness of a number: everything but [0] and [NaN]. *)
Definition truthy (a : number) : bool :=
  match a with
  | NaN => false
  | Fin x => negb (Qc_eqb x (Q2Qc 0))
  | _ => true
  end.

(** [Math.round(a)]: the nearest integer, a tie going up. *)
Definition Math_round (a : number) : number :=
  match a with
  | Fin x => of_Z (Qfloor (x + (1 # 2)))
  | _ => a
  end.

(** [Math.max(a, b)] and [Math.min(a, b)] *)
Definition Math_max (a b : number) : number :=
  match a, b with
  | NaN, _ | _, NaN => NaN
  | _, _ => if ltb a b then b else a
  end.
Definition Math_min (a b : number) : number :=
  match a, b with
  | NaN, _ | _, NaN => NaN
  | _, _ => if ltb b a then b else a
  end.

(** [a % b]: the remainder has the sign of the dividend. *)
Definition Qtrunc (q : Q) : Z :=
  if Qle_bool 0 q then Qfloor q else Qceiling q.
Definition rem (a b : number) : number :=
  match a, b with
  | NaN, _ | _, NaN => NaN
  | PosInf, _ | NegInf, _ => NaN
  | Fin _, PosInf | Fin _, NegInf => a
  | Fin x, Fin y =>
      match Qccompare y (Q2Qc 0) with
      | Eq => NaN
      | _ => Fin (x - y * Q2Qc (inject_Z (Qtrunc (x / y))))%Qc
      end
  end.

(** A value of any type, for the parameters the code inspects with
    [typeof]. *)
Inductive value : Type :=
| VUndefined
| VNull
| VBool (b : bool)
| VNum (n : number)
| VStr (s : string)
| VObj (id : nat)
| VFun (id : nat).

Definition typeof (v : value) : string :=
  match v with
  | VUndefined => "undefined"
  | VNull => "object"
  | VBool _ => "boolean"
  | VNum _ => "number"
  | VStr _ => "string"
  | VObj _ => "object"
  | VFun _ => "function"
  end.

(** The number that a value of type number is.  The code reads it only
    behind a [typeof v !== 'number'] test that has failed. *)
Definition numberOf (v : value) : number :=
  match v with VNum n => n | _ => NaN end.

(** A field that is a number or [undefined]. *)
Definition toNumber (v : option number) : number :=
  match v with Some n => n | None => NaN end.

Definition truthy_opt (v : option number) : bool :=
  match v with Some n => truthy n | None => false end.

(** [v || d] where [v] is a number or [undefined] and [d] a number. *)
Definition or_num (v : option number) (d : number) : number :=
  match v with
  | Some n => if truthy n then n else d
  | None => d
  end.

(** [a || d] on numbers. *)
Definition or_else (a d : number) : number := if truthy a then a else d.

End JS.

(** ** The peak cache ([src/peakcache.js])

    [wavesurfer.js] imports [PeakCache] from [./peakcache]; that file is not
    among the sources.  The facade uses one operation of it,
    [addRangeToPeakCache(length, start, end)], called [addRange] in the
    specification. *)

Module PeakCache.

Definition range : Type := (JS.number * JS.number)%type.

(** Modelled from the spec: the class [PeakCache] of [src/peakcache.js],
    which is missing.  Section 3 (CacheEntry): the painted ranges of the
    current total width, sorted by start, no two touching or overlapping;
    the width recorded by the previous call is kept with them (there is none
    before the first call). *)
Record t : Type := mk {
  painted : list range;
  recordedWidth : option JS.number
}.

(** Modelled from the spec: the constructor of the missing [PeakCache]; an
    empty cache (section 4.1, "empty cache"). *)
Definition create : t := {| painted := []; recordedWidth := None |}.

(** Modelled from the spec: section 4.1, "If totalWidth differs from the
    width recorded on the previous call".  Before the first call nothing is
    painted, and discarding changes nothing. *)
Definition widthDiffers (c : t) (totalWidth : JS.number) : bool :=
  match recordedWidth c with
  | Some w => JS.neqb totalWidth w
  | None => true
  end.

(** Modelled from the spec: section 4.1, "the new sub-ranges returned are
    exactly the gaps between [start, end) and the pre-existing coverage",
    found by a scan of the sorted entry list. *)
Fixpoint gaps (entries : list range) (start end_ : JS.number) : list range :=
  match entries with
  | [] => if JS.ltb start end_ then [(start, end_)] else []
  | (a, b) :: rest =>
      if JS.leb b start then gaps rest start end_
      else if JS.leb end_ a then
        (if JS.ltb start end_ then [(start, end_)] else [])
      else
        (if JS.ltb start a then [(start, a)] else [])
        ++ (if JS.ltb b end_ then gaps rest b end_ else [])
  end.

(** Modelled from the spec: section 4.1, the merge rule: "any existing entry
    overlapping or adjacent (existing.start <= end && existing.end >= start)
    is absorbed into a widened entry". *)
Fixpoint insert (entries : list range) (start end_ : JS.number) : list range :=
  match entries with
  | [] => [(start, end_)]
  | (a, b) :: rest =>
      if JS.leb a end_ && JS.geb b start then
        insert rest (JS.Math_min start a) (JS.Math_max end_ b)
      else if JS.ltb b start then (a, b) :: insert rest start end_
      else (start, end_) :: (a, b) :: rest
  end.

(** Modelled from the spec: section 4.1, the contract of
    [addRange(totalWidth, start, end)] (in the code,
    [addRangeToPeakCache]): a changed width discards the painted set first;
    the degenerate range [start == end] returns nothing and paints nothing;
    otherwise the gaps are returned and the whole range is marked painted.
    The result is the returned sequence and the cache after the call. *)
Definition addRangeToPeakCache (c : t) (totalWidth start end_ : JS.number)
  : list range * t :=
  let entries := if widthDiffers c totalWidth then [] else painted c in
  if JS.eqb start end_ then
    ([], {| painted := entries; recordedWidth := Some totalWidth |})
  else
    (gaps entries start end_,
     {| painted := insert entries start end_;
        recordedWidth := Some totalWidth |}).

End PeakCache.

(** ** The instance, its collaborators and the method monad *)

(** What [throw new Error(message)] raises, and the [TypeError] of a call on
    a collaborator that is still [null]. *)
Inductive exn : Type :=
| Error (message : string)
| TypeError (message : string).

(** The first argument of [load]: a sequence of samples, or one sequence per
    channel.  [PeakStub] is the object [{ length: n }] that [empty] hands to
    the drawer. *)
Inductive peaks : Type :=
| PeakList (samples : list JS.number)
| PeakChannels (channels : list (list JS.number))
| PeakStub (length : JS.number).

(** [peaks.length] *)
Definition peaks_length (p : peaks) : JS.number :=
  match p with
  | PeakList l => JS.of_Z (Z.of_nat (List.length l))
  | PeakChannels l => JS.of_Z (Z.of_nat (List.length l))
  | PeakStub n => n
  end.

(** An argument of [fireEvent]. *)
Inductive arg : Type :=
| ANum (n : JS.number)
| AOptNum (n : option JS.number)
| APeaks (p : option peaks)
| AClosure (description : string)
| ADrawer.

(** A call that leaves [wavesurfer.js]. *)
Inductive event : Type :=
| FireEvent (name : string) (args : list arg)
| ConsoleLog (text : string)
| Style (property value : string)
| AddEventListener (name : string)
| DrawerInit
| DrawerOn (name : string)
| DrawerProgress (progress : JS.number) (scrollParentSeen : bool)
| DrawerSetWidth (width : JS.number)
| DrawerDrawPeaks (p : option peaks) (width : JS.number)
    (start end_ : option JS.number)
| DrawerRecenter (progress : JS.number)
| CacheAddRange (width start end_ : JS.number).

(** Modelled from the spec: the drawer ([src/drawer.multicanvas.js], or the
    class given as [renderer]), which is missing.  Section 6 calls what
    [getWidth()] returns "the host's visible width"; section 4.4 has
    [progress(fraction)] move the playhead.  Every call on the drawer is
    also recorded in the log. *)
Record Drawer : Type := mkDrawer {
  getWidth : JS.number;
  progressPos : option JS.number
}.

(** [params.container] as the caller gives it. *)
Inductive containerParam : Type :=
| ContainerSelector (selector : string)
| ContainerElement (element : nat)
| ContainerNull.

(** The part of [this.params] the methods below read or write. *)
Record Params : Type := mkParams {
  backgroundColor : option string;
  pcontainer : containerParam;
  fillParent : bool;
  interact : bool;
  maxCanvasWidth : JS.number;
  minPxPerSec : JS.number;
  partialRender : bool;
  pixelRatio : JS.number;
  renderer : JS.value;
  responsive : JS.value;
  rtl : bool;
  scrollParent : bool;
  skipLength : JS.number;
  vertical : bool
}.

(** The argument of the constructor: every key may be absent.  The key
    [plugins] is not among them: the embedding covers the callers who pass
    no plugins, so that [params.plugins] is the default, empty, array. *)
Record UserParams : Type := mkUserParams {
  u_backgroundColor : option (option string);
  u_container : option containerParam;
  u_fillParent : option bool;
  u_interact : option bool;
  u_maxCanvasWidth : option JS.number;
  u_minPxPerSec : option JS.number;
  u_partialRender : option bool;
  u_pixelRatio : option JS.number;
  u_renderer : option JS.value;
  u_responsive : option JS.value;
  u_rtl : option bool;
  u_scrollParent : option bool;
  u_skipLength : option JS.number;
  u_vertical : option bool
}.

Definition noParams : UserParams :=
  mkUserParams None None None None None None None None None None None None
    None None.

(** What the class reads from the browser: [document.querySelector], the
    pixel ratio of the device, the function [MultiCanvas], and the drawer a
    renderer function builds for a container. *)
Record Env : Type := mkEnv {
  querySelector : string -> option nat;
  devicePixelRatio : JS.number;
  MultiCanvas : nat;
  newDrawer : nat -> option nat -> Drawer
}.

Definition defaultParams (env : Env) : Params :=
  {| backgroundColor := None;
     pcontainer := ContainerNull;
     fillParent := true;
     interact := true;
     maxCanvasWidth := JS.of_Z 4000;
     minPxPerSec := JS.of_Z 20;
     partialRender := false;
     pixelRatio := devicePixelRatio env;
     renderer := JS.VFun (MultiCanvas env);
     responsive := JS.VBool false;
     rtl := false;
     scrollParent := false;
     skipLength := JS.of_Z 2;
     vertical := false |}.

Definition pick {A : Type} (given : option A) (default : A) : A :=
  match given with Some a => a | None => default end.

(** [Object.assign({}, this.defaultParams, params)] *)
Definition assign (d : Params) (u : UserParams) : Params :=
  {| backgroundColor := pick (u_backgroundColor u) (backgroundColor d);
     pcontainer := pick (u_container u) (pcontainer d);
     fillParent := pick (u_fillParent u) (fillParent d);
     interact := pick (u_interact u) (interact d);
     maxCanvasWidth := pick (u_maxCanvasWidth u) (maxCanvasWidth d);
     minPxPerSec := pick (u_minPxPerSec u) (minPxPerSec d);
     partialRender := pick (u_partialRender u) (partialRender d);
     pixelRatio := pick (u_pixelRatio u) (pixelRatio d);
     renderer := pick (u_renderer u) (renderer d);
     responsive := pick (u_responsive u) (responsive d);
     rtl := pick (u_rtl u) (rtl d);
     scrollParent := pick (u_scrollParent u) (scrollParent d);
     skipLength := pick (u_skipLength u) (skipLength d);
     vertical := pick (u_vertical u) (vertical d) |}.

(** The instance. *)
Record WaveSurfer : Type := mkWaveSurfer {
  params : Params;
  container : option nat;
  drawer : option Drawer;
  peakCache : option PeakCache.t;
  DrawerClass : option JS.value;
  isDestroyed : bool;
  isReady : bool;
  peaks_ : option peaks;
  duration : option JS.number;
  curPosition : option JS.number;
  peakMax : option JS.number;
  log : list event
}.

(** The instance as [super()] leaves it: no field of the class is set. *)
Definition blank (env : Env) : WaveSurfer :=
  {| params := defaultParams env;
     container := None;
     drawer := None;
     peakCache := None;
     DrawerClass := None;
     isDestroyed := false;
     isReady := false;
     peaks_ := None;
     duration := None;
     curPosition := None;
     peakMax := None;
     log := [] |}.

Definition set_params (p : Params) (w : WaveSurfer) : WaveSurfer :=
  mkWaveSurfer p (container w) (drawer w) (peakCache w) (DrawerClass w)
    (isDestroyed w) (isReady w) (peaks_ w) (duration w) (curPosition w)
    (peakMax w) (log w).
Definition set_container (c : option nat) (w : WaveSurfer) : WaveSurfer :=
  mkWaveSurfer (params w) c (drawer w) (peakCache w) (DrawerClass w)
    (isDestroyed w) (isReady w) (peaks_ w) (duration w) (curPosition w)
    (peakMax w) (log w).
Definition set_drawer (d : option Drawer) (w : WaveSurfer) : WaveSurfer :=
  mkWaveSurfer (params w) (container w) d (peakCache w) (DrawerClass w)
    (isDestroyed w) (isReady w) (peaks_ w) (duration w) (curPosition w)
    (peakMax w) (log w).
Definition set_peakCache (c : option PeakCache.t) (w : WaveSurfer)
  : WaveSurfer :=
  mkWaveSurfer (params w) (container w) (drawer w) c (DrawerClass w)
    (isDestroyed w) (isReady w) (peaks_ w) (duration w) (curPosition w)
    (peakMax w) (log w).
Definition set_DrawerClass (f : option JS.value) (w : WaveSurfer) : WaveSurfer :=
  mkWaveSurfer (params w) (container w) (drawer w) (peakCache w) f
    (isDestroyed w) (isReady w) (peaks_ w) (duration w) (curPosition w)
    (peakMax w) (log w).
Definition set_isDestroyed (b : bool) (w : WaveSurfer) : WaveSurfer :=
  mkWaveSurfer (params w) (container w) (drawer w) (peakCache w)
    (DrawerClass w) b (isReady w) (peaks_ w) (duration w) (curPosition w)
    (peakMax w) (log w).
Definition set_isReady (b : bool) (w : WaveSurfer) : WaveSurfer :=
  mkWaveSurfer (params w) (container w) (drawer w) (peakCache w)
    (DrawerClass w) (isDestroyed w) b (peaks_ w) (duration w) (curPosition w)
    (peakMax w) (log w).
Definition set_peaks (p : option peaks) (w : WaveSurfer) : WaveSurfer :=
  mkWaveSurfer (params w) (container w) (drawer w) (peakCache w)
    (DrawerClass w) (isDestroyed w) (isReady w) p (duration w)
    (curPosition w) (peakMax w) (log w).
Definition set_duration (d : option JS.number) (w : WaveSurfer)
  : WaveSurfer :=
  mkWaveSurfer (params w) (container w) (drawer w) (peakCache w)
    (DrawerClass w) (isDestroyed w) (isReady w) (peaks_ w) d (curPosition w)
    (peakMax w) (log w).
Definition set_curPosition (c : option JS.number) (w : WaveSurfer)
  : WaveSurfer :=
  mkWaveSurfer (params w) (container w) (drawer w) (peakCache w)
    (DrawerClass w) (isDestroyed w) (isReady w) (peaks_ w) (duration w) c
    (peakMax w) (log w).
Definition set_peakMax (m : option JS.number) (w : WaveSurfer)
  : WaveSurfer :=
  mkWaveSurfer (params w) (container w) (drawer w) (peakCache w)
    (DrawerClass w) (isDestroyed w) (isReady w) (peaks_ w) (duration w)
    (curPosition w) m (log w).
Definition set_log (l : list event) (w : WaveSurfer) : WaveSurfer :=
  mkWaveSurfer (params w) (container w) (drawer w) (peakCache w)
    (DrawerClass w) (isDestroyed w) (isReady w) (peaks_ w) (duration w)
    (curPosition w) (peakMax w) l.

Definition set_scrollParent (b : bool) (p : Params) : Params :=
  mkParams (backgroundColor p) (pcontainer p) (fillParent p) (interact p)
    (maxCanvasWidth p) (minPxPerSec p) (partialRender p) (pixelRatio p)
    (renderer p) (responsive p) (rtl p) b (skipLength p) (vertical p).
Definition set_minPxPerSec (n : JS.number) (p : Params) : Params :=
  mkParams (backgroundColor p) (pcontainer p) (fillParent p) (interact p)
    (maxCanvasWidth p) n (partialRender p) (pixelRatio p)
    (renderer p) (responsive p) (rtl p) (scrollParent p) (skipLength p)
    (vertical p).
Definition set_backgroundColor (c : option string) (p : Params) : Params :=
  mkParams c (pcontainer p) (fillParent p) (interact p)
    (maxCanvasWidth p) (minPxPerSec p) (partialRender p) (pixelRatio p)
    (renderer p) (responsive p) (rtl p) (scrollParent p) (skipLength p)
    (vertical p).

(** *** The monad of methods *)

Inductive outcome (A : Type) : Type :=
| Return (a : A)
| Throw (e : exn).
Arguments Return {A} a.
Arguments Throw {A} e.

Definition M (A : Type) : Type := WaveSurfer -> outcome A * WaveSurfer.

Definition ret {A : Type} (a : A) : M A := fun w => (Return a, w).

Definition bind {A B : Type} (m : M A) (k : A -> M B) : M B :=
  fun w =>
    match m w with
    | (Return a, w') => k a w'
    | (Throw e, w') => (Throw e, w')
    end.

Definition throw {A : Type} (e : exn) : M A := fun w => (Throw e, w).
Definition get : M WaveSurfer := fun w => (Return w, w).
Definition modify (f : WaveSurfer -> WaveSurfer) : M unit :=
  fun w => (Return tt, f w).
Definition emit (e : event) : M unit :=
  modify (fun w => set_log (log w ++ [e]) w).
Definition when (b : bool) (m : M unit) : M unit :=
  if b then m else ret tt.

Declare Scope js_scope.
Delimit Scope js_scope with js.
Notation "x <- c1 ;; c2" := (bind c1 (fun x => c2))
  (at level 100, c1 at next level, right associativity) : js_scope.
Notation "c1 ;; c2" := (bind c1 (fun _ => c2))
  (at level 100, right associativity) : js_scope.
Open Scope js_scope.

(** ** The methods of [WaveSurfer] *)

(** [this.fireEvent(name, ...args)]: the observer is the base class, of
    [src/util]; the handlers it runs are not part of the class. *)
Definition fireEvent (name : string) (args : list arg) : M unit :=
  emit (FireEvent name args).

(** Any use of [this.drawer.m(...)]: a [TypeError] while the drawer is
    [null]. *)
Definition theDrawer : M Drawer :=
  w <- get ;;
  match drawer w with
  | Some d => ret d
  | None => throw (TypeError "this.drawer is null")
  end.

(** Any use of [this.peakCache.m(...)]. *)
Definition thePeakCache : M PeakCache.t :=
  w <- get ;;
  match peakCache w with
  | Some c => ret c
  | None => throw (TypeError "this.peakCache is null")
  end.

(** [this.drawer.progress(progress)]; the drawer holds the same [params]
    object, so it sees [params.scrollParent] as it is at the call. *)
Definition drawer_progress (progress : JS.number) : M unit :=
  d <- theDrawer ;;
  w <- get ;;
  emit (DrawerProgress progress (scrollParent (params w))) ;;
  modify (set_drawer (Some (mkDrawer (getWidth d) (Some progress)))).

Definition drawer_getWidth : M JS.number :=
  d <- theDrawer ;; ret (getWidth d).

Definition drawer_setWidth (width : JS.number) : M unit :=
  _ <- theDrawer ;; emit (DrawerSetWidth width).

Definition drawer_drawPeaks (p : option peaks) (width : JS.number)
  (start end_ : option JS.number) : M unit :=
  _ <- theDrawer ;; emit (DrawerDrawPeaks p width start end_).

Definition drawer_recenter (progress : JS.number) : M unit :=
  _ <- theDrawer ;; emit (DrawerRecenter progress).

(** [setBackgroundColor(color)] *)
Definition setBackgroundColor (color : string) : M unit :=
  modify (fun w => set_params (set_backgroundColor (Some color) (params w)) w) ;;
  emit (Style "background" color).

(** [constructor(params)], run on the instance [super()] returns. *)
Definition constructor (env : Env) (user : UserParams) : M unit :=
  modify (set_params (assign (defaultParams env) user)) ;;
  w <- get ;;
  modify (set_container
            match u_container user with
            | Some (ContainerSelector _) =>
                match pcontainer (params w) with
                | ContainerSelector s => querySelector env s
                | ContainerElement e => Some e
                | ContainerNull => None
                end
            | _ =>
                match pcontainer (params w) with
                | ContainerElement e => Some e
                | _ => None
                end
            end) ;;
  w <- get ;;
  match container w with
  | None => throw (Error "Container element not found")
  | Some _ =>
      (if JS.leb (maxCanvasWidth (params w)) JS.one then
         throw (Error "maxCanvasWidth must be greater than 1")
       else if JS.eqb (JS.rem (maxCanvasWidth (params w)) (JS.of_Z 2)) JS.one
       then throw (Error "maxCanvasWidth must be an even number")
       else ret tt) ;;
      when (rtl (params w))
        (if vertical (params w)
         then emit (Style "transform" "rotateX(180deg)")
         else emit (Style "transform" "rotateY(180deg)")) ;;
      match backgroundColor (params w) with
      | Some c => if String.eqb c "" then ret tt else setBackgroundColor c
      | None => ret tt
      end ;;
      modify (set_drawer None) ;;
      modify (set_peakCache None) ;;
      if negb (String.eqb (JS.typeof (renderer (params w))) "function") then
        throw (Error "Renderer parameter is invalid")
      else
        modify (set_DrawerClass (Some (renderer (params w)))) ;;
        modify (set_isDestroyed false) ;;
        modify (set_isReady false)
  end.

(** [registerPlugins(plugins)] for the default, empty, [plugins]: neither
    [forEach] runs an iteration, so no plugin is added or initialised, and
    only the event is fired.  A plugin is code of the caller, and
    [addPlugin] lets it replace any member of the instance; instances built
    with plugins are outside the embedding. *)
Definition registerPlugins : M unit :=
  fireEvent "plugins-registered" [].

(** [createDrawer()] *)
Definition createDrawer (env : Env) : M unit :=
  w <- get ;;
  match DrawerClass w with
  | Some (JS.VFun f) =>
      modify (set_drawer (Some (newDrawer env f (container w)))) ;;
      emit DrawerInit ;;
      fireEvent "drawer-created" [ADrawer] ;;
      when (match responsive (params w) with
            | JS.VBool false => false
            | _ => true
            end)
        (emit (AddEventListener "resize") ;;
         emit (AddEventListener "orientationchange")) ;;
      emit (DrawerOn "redraw") ;;
      emit (DrawerOn "click") ;;
      emit (DrawerOn "scroll")
  | _ => throw (TypeError "this.Drawer is not a constructor")
  end.

(** [createPeakCache()] *)
Definition createPeakCache : M unit :=
  w <- get ;;
  when (partialRender (params w))
    (modify (set_peakCache (Some PeakCache.create))).

(** [init()] *)
Definition init (env : Env) : M unit :=
  registerPlugins ;;
  createDrawer env ;;
  createPeakCache.

(** [WaveSurfer.create(params)] *)
Definition create (env : Env) (user : UserParams)
  : outcome unit * WaveSurfer :=
  (constructor env user ;; init env) (blank env).

(** [getDuration()] and [getCurrentTime()] *)
Definition getDuration : M (option JS.number) :=
  w <- get ;; ret (duration w).
Definition getCurrentTime : M (option JS.number) :=
  w <- get ;; ret (curPosition w).

(** [getPlayedPercents()]:
    [return this.getCurrentTime() / this.duration || 0] *)
Definition getPlayedPercents : M JS.number :=
  t <- getCurrentTime ;;
  w <- get ;;
  ret (JS.or_else (JS.div (JS.toNumber t) (JS.toNumber (duration w)))
         JS.zero).

(** [pause()] *)
Definition pause : M unit := emit (ConsoleLog "pause() called").

(** [seekTo(progress)] *)
Definition seekTo (progress : JS.value) : M unit :=
  let p := JS.numberOf progress in
  if negb (String.eqb (JS.typeof progress) "number")
     || negb (JS.isFinite p)
     || JS.ltb p JS.zero
     || JS.gtb p JS.one
  then
    throw (Error "Error calling wavesurfer.seekTo, parameter must be a number between 0 and 1!")
  else
    fireEvent "interaction" [AClosure "() => this.seekTo(progress)"] ;;
    w <- get ;;
    let oldScrollParent := scrollParent (params w) in
    modify (fun w => set_params (set_scrollParent false (params w)) w) ;;
    d <- getDuration ;;
    modify (set_curPosition (Some (JS.mul p (JS.toNumber d)))) ;;
    drawer_progress p ;;
    modify (fun w =>
              set_params (set_scrollParent oldScrollParent (params w)) w) ;;
    fireEvent "seek" [ANum p].

(** [seekAndCenter(progress)] *)
Definition seekAndCenter (progress : JS.number) : M unit :=
  seekTo (JS.VNum progress) ;;
  drawer_recenter progress.

(** [setCurrentTime(seconds)] *)
Definition setCurrentTime (seconds : JS.number) : M unit :=
  w <- get ;;
  if JS.geb seconds (JS.toNumber (duration w)) then seekTo (JS.VNum JS.one)
  else seekTo (JS.VNum (JS.div seconds (JS.toNumber (duration w)))).

(** The three local values of [skip(offset)]: [duration], the clamped
    [position], and the argument [position / duration] of
    [seekAndCenter]. *)
Definition skip_duration (w : WaveSurfer) : JS.number :=
  JS.or_num (duration w) JS.one.
Definition skip_position (w : WaveSurfer) (offset : option JS.number)
  : JS.number :=
  let position := JS.or_num (curPosition w) JS.zero in
  JS.Math_max JS.zero
    (JS.Math_min (skip_duration w)
       (JS.add position (JS.or_num offset JS.zero))).
Definition skip_progress (w : WaveSurfer) (offset : option JS.number)
  : JS.number :=
  JS.div (skip_position w offset) (skip_duration w).

(** [skip(offset)] *)
Definition skip (offset : option JS.number) : M unit :=
  w <- get ;;
  seekAndCenter (skip_progress w offset).

(** [skipBackward(seconds)] and [skipForward(seconds)] *)
Definition skipBackward (seconds : option JS.number) : M unit :=
  w <- get ;;
  skip (Some (JS.or_else (JS.neg (JS.toNumber seconds))
                (JS.neg (skipLength (params w))))).
Definition skipForward (seconds : option JS.number) : M unit :=
  w <- get ;;
  skip (Some (JS.or_num seconds (skipLength (params w)))).

(** [stop()] *)
Definition stop : M unit :=
  pause ;;
  seekTo (JS.VNum JS.zero).

(** The [for] loop of [drawBuffer]: [body i] for [i] from [i] on, [count]
    times. *)
Fixpoint forLoop (count : nat) (body : nat -> M unit) (i : nat) : M unit :=
  match count with
  | O => ret tt
  | S k => body i ;; forLoop k body (S i)
  end.

(** The values [drawBuffer] computes before it draws: [nominalWidth], and
    then [width], [start] and [end] for a given [parentWidth]. *)
Definition nominalWidth (w : WaveSurfer) : JS.number :=
  JS.Math_round
    (JS.mul (JS.mul (JS.toNumber (duration w)) (minPxPerSec (params w)))
       (pixelRatio (params w))).

Definition drawExtent (w : WaveSurfer) (parentWidth : JS.number)
  : JS.number * JS.number * JS.number :=
  let width := nominalWidth w in
  let start := JS.zero in
  let end_ := JS.Math_max (JS.add start parentWidth) width in
  if fillParent (params w)
     && (negb (scrollParent (params w)) || JS.ltb (nominalWidth w) parentWidth)
  then (parentWidth, JS.zero, parentWidth)
  else (width, start, end_).

(** [drawBuffer()] *)
Definition drawBuffer : M unit :=
  w <- get ;;
  parentWidth <- drawer_getWidth ;;
  let '(width, start, end_) := drawExtent w parentWidth in
  (if partialRender (params w) then
     c <- thePeakCache ;;
     emit (CacheAddRange width start end_) ;;
     let (newRanges, c') :=
       PeakCache.addRangeToPeakCache c width start end_ in
     modify (set_peakCache (Some c')) ;;
     forLoop (List.length newRanges)
       (fun i =>
          w <- get ;;
          let r := nth i newRanges (JS.NaN, JS.NaN) in
          drawer_drawPeaks (peaks_ w) width (Some (fst r)) (Some (snd r)))
       O
   else
     drawer_drawPeaks (peaks_ w) width (Some start) (Some end_)) ;;
  w <- get ;;
  fireEvent "redraw" [APeaks (peaks_ w); ANum width].

(** [toggleScroll()] *)
Definition toggleScroll : M unit :=
  modify (fun w =>
            set_params
              (set_scrollParent (negb (scrollParent (params w))) (params w))
              w) ;;
  drawBuffer.


(** [empty()] *)
Definition empty : M unit :=
  stop ;;
  modify (set_curPosition (Some JS.zero)) ;;
  modify (set_duration (Some JS.zero)) ;;
  modify (set_isReady false) ;;
  drawer_progress JS.zero ;;
  drawer_setWidth JS.zero ;;
  n <- drawer_getWidth ;;
  drawer_drawPeaks (Some (PeakStub n)) JS.zero None None.

(** [load(peaks, duration, pmax)]; a missing argument is [None]. *)
Definition load (p : option peaks) (d : option JS.number)
  (pmax : option JS.number) : M unit :=
  match p with
  | None => throw (Error "peaks cannot be empty")
  | Some pk =>
      if JS.eqb (peaks_length pk) JS.zero then
        throw (Error "peaks cannot be empty")
      else if negb (JS.truthy_opt d) then
        throw (Error "duration parameter cannot be empty")
      else
        empty ;;
        modify (set_peaks p) ;;
        modify (set_duration d) ;;
        modify (set_peakMax (Some (JS.or_num pmax JS.zero))) ;;
        drawBuffer ;;
        modify (set_isReady true) ;;
        fireEvent "ready" []
  end.

(** ** Vocabulary of the statements *)

(** The error of [seekTo]. *)
Definition seekToError : exn :=
  Error "Error calling wavesurfer.seekTo, parameter must be a number between 0 and 1!".

(** The test at the head of [seekTo], by name. *)
Definition seekToCheck (v : JS.value) : bool :=
  negb (String.eqb (JS.typeof v) "number")
  || negb (JS.isFinite (JS.numberOf v))
  || JS.ltb (JS.numberOf v) JS.zero
  || JS.gtb (JS.numberOf v) JS.one.

(** A finite number between 0 and 1 inclusive. *)
Definition inUnitInterval (v : JS.value) : Prop :=
  exists q : Qc,
    v = JS.VNum (JS.Fin q) /\ (Q2Qc 0 <= q)%Qc /\ (q <= Q2Qc 1)%Qc.

(** The call [drawPeaks(peaks, width, r[0], r[1])] and the event
    [fireEvent('redraw', peaks, width)]. *)
Definition drawEvent (p : option peaks) (width : JS.number)
  (r : PeakCache.range) : event :=
  DrawerDrawPeaks p width (Some (fst r)) (Some (snd r)).

Definition redrawEvent (w : WaveSurfer) (width : JS.number) : event :=
  FireEvent "redraw" [APeaks (peaks_ w); ANum width].

(** The components of [drawExtent]. *)
Definition extentWidth (x : JS.number * JS.number * JS.number) : JS.number :=
  fst (fst x).
Definition extentStart (x : JS.number * JS.number * JS.number) : JS.number :=
  snd (fst x).
Definition extentEnd (x : JS.number * JS.number * JS.number) : JS.number :=
  snd x.

(** The instance after a [seekTo(p)] that passed the test, and after
    [empty()], on an instance whose drawer is [d]. *)
Definition afterSeek (p : JS.number) (d : Drawer) (w : WaveSurfer)
  : WaveSurfer :=
  set_log (log w ++ [FireEvent "interaction"
                       [AClosure "() => this.seekTo(progress)"];
                     DrawerProgress p false;
                     FireEvent "seek" [ANum p]])
    (set_drawer (Some (mkDrawer (getWidth d) (Some p)))
       (set_curPosition (Some (JS.mul p (JS.toNumber (duration w)))) w)).

Definition afterEmpty (d : Drawer) (w : WaveSurfer) : WaveSurfer :=
  set_log (log w ++ [ConsoleLog "pause() called";
                     FireEvent "interaction"
                       [AClosure "() => this.seekTo(progress)"];
                     DrawerProgress JS.zero false;
                     FireEvent "seek" [ANum JS.zero];
                     DrawerProgress JS.zero (scrollParent (params w));
                     DrawerSetWidth JS.zero;
                     DrawerDrawPeaks (Some (PeakStub (getWidth d))) JS.zero
                       None None])
    (set_drawer (Some (mkDrawer (getWidth d) (Some JS.zero)))
       (set_isReady false
          (set_duration (Some JS.zero) (set_curPosition (Some JS.zero) w)))).

(** An instance on which [init()] has run: it has its drawer, and its peak
    cache if partial rendering is on. *)
Definition initialised (w : WaveSurfer) : Prop :=
  drawer w <> None
  /\ (partialRender (params w) = true -> peakCache w <> None).

(** The calls of [drawPeaks] in a log. *)
Definition isDrawPeaks (e : event) : bool :=
  match e with DrawerDrawPeaks _ _ _ _ => true | _ => false end.
Definition drawCalls (l : list event) : list event := filter isDrawPeaks l.

(** The container the constructor ends up with. *)
Definition resolvedContainer (env : Env) (user : UserParams) : option nat :=
  match u_container user with
  | Some (ContainerSelector s) => querySelector env s
  | Some (ContainerElement e) => Some e
  | _ => None
  end.

(** The two tests on [maxCanvasWidth], and the error they raise. *)
Definition maxCanvasWidthError (n : JS.number) : option exn :=
  if JS.leb n JS.one then Some (Error "maxCanvasWidth must be greater than 1")
  else if JS.eqb (JS.rem n (JS.of_Z 2)) JS.one
       then Some (Error "maxCanvasWidth must be an even number")
       else None.

(** The calls of [util.style] the constructor makes. *)
Definition constructorStyles (p : Params) : list event :=
  (if rtl p
   then [Style "transform"
           (if vertical p then "rotateX(180deg)" else "rotateY(180deg)")]
   else [])
  ++ match backgroundColor p with
     | Some c => if String.eqb c "" then [] else [Style "background" c]
     | None => []
     end.

(** The constructor in closed form. *)
Definition constructorResult (env : Env) (user : UserParams) (w0 : WaveSurfer)
  : outcome unit * WaveSurfer :=
  let p := assign (defaultParams env) user in
  let w2 := set_container (resolvedContainer env user) (set_params p w0) in
  match resolvedContainer env user with
  | None => (Throw (Error "Container element not found"), w2)
  | Some _ =>
      match maxCanvasWidthError (maxCanvasWidth p) with
      | Some e => (Throw e, w2)
      | None =>
          let w4 :=
            set_peakCache None
              (set_drawer None
                 (set_log (log w0 ++ constructorStyles p) w2)) in
          if String.eqb (JS.typeof (renderer p)) "function" then
            (Return tt,
             set_isReady false
               (set_isDestroyed false
                  (set_DrawerClass (Some (renderer p)) w4)))
          else (Throw (Error "Renderer parameter is invalid"), w4)
      end
  end.

(** What [init()] logs, and the instance it leaves, for the renderer
    function [f]. *)
Definition initEvents (w : WaveSurfer) : list event :=
  [FireEvent "plugins-registered" []; DrawerInit;
   FireEvent "drawer-created" [ADrawer]]
  ++ (match responsive (params w) with
      | JS.VBool false => []
      | _ => [AddEventListener "resize"; AddEventListener "orientationchange"]
      end)
  ++ [DrawerOn "redraw"; DrawerOn "click"; DrawerOn "scroll"].

Definition afterInit (env : Env) (f : nat) (w : WaveSurfer) : WaveSurfer :=
  set_peakCache
    (if partialRender (params w) then Some PeakCache.create else peakCache w)
    (set_drawer (Some (newDrawer env f (container w)))
       (set_log (log w ++ initEvents w) w)).

(** A stored number that is not one of the two infinities (it may be
    [undefined] or [NaN]). *)
Definition notInfinite (v : option JS.number) : Prop :=
  v <> Some JS.PosInf /\ v <> Some JS.NegInf.

(** The two tests at the head of [load]: [peaks] missing or of length 0, or
    [duration] falsy. *)
Definition loadRejects (p : option peaks) (d : option JS.number) : bool :=
  match p with
  | None => true
  | Some pk => JS.eqb (peaks_length pk) JS.zero
  end
  || negb (JS.truthy_opt d).

(** A page with one element, [#waveform], 600 pixels wide, and the example
    of the README. *)
Definition demoEnv : Env :=
  mkEnv (fun s => if String.eqb s "#waveform" then Some 1%nat else None)
    JS.one 0%nat (fun _ _ => mkDrawer (JS.of_Z 600) None).
Definition demoUser : UserParams :=
  mkUserParams None (Some (ContainerSelector "#waveform")) None None None
    None None None None None None None None None.
Definition demoPartialUser : UserParams :=
  mkUserParams None (Some (ContainerSelector "#waveform")) None None None
    None (Some true) None None None None None None None.
Definition demoInstance : WaveSurfer := snd (create demoEnv demoUser).
Definition demoPartialInstance : WaveSurfer :=
  snd (create demoEnv demoPartialUser).
Definition demoPeaks : option peaks :=
  Some (PeakList (map JS.of_Z [0; 100; 45; 11; 202; 68; 240]%Z)).

(** What [empty()] logs, and the instance [load] hands to [drawBuffer]. *)
Definition emptyEvents (dr : Drawer) (w : WaveSurfer) : list event :=
  [ConsoleLog "pause() called";
   FireEvent "interaction" [AClosure "() => this.seekTo(progress)"];
   DrawerProgress JS.zero false;
   FireEvent "seek" [ANum JS.zero];
   DrawerProgress JS.zero (scrollParent (params w));
   DrawerSetWidth JS.zero;
   DrawerDrawPeaks (Some (PeakStub (getWidth dr))) JS.zero None None].

Definition beforeDraw (p : option peaks) (d pmax : option JS.number)
  (dr : Drawer) (w : WaveSurfer) : WaveSurfer :=
  set_peakMax (Some (JS.or_num pmax JS.zero))
    (set_duration d (set_peaks p (afterEmpty dr w))).

(** A caller who passes an element and [maxCanvasWidth: 2.5], and one who
    passes the number 1 as [renderer]. *)
Definition fractionalUser (element : nat) : UserParams :=
  mkUserParams None (Some (ContainerElement element)) None None
    (Some (JS.of_Q (5 # 2))) None None None None None None None None None.
Definition badRendererUser : UserParams :=
  mkUserParams None (Some (ContainerSelector "#waveform")) None None None
    None None None (Some (JS.VNum JS.one)) None None None None None.

(** Every field but the log and the peak cache is the same. *)
Definition onlyLogAndCache (w w' : WaveSurfer) : Prop :=
  params w' = params w
  /\ container w' = container w
  /\ drawer w' = drawer w
  /\ DrawerClass w' = DrawerClass w
  /\ isDestroyed w' = isDestroyed w
  /\ isReady w' = isReady w
  /\ peaks_ w' = peaks_ w
  /\ duration w' = duration w
  /\ curPosition w' = curPosition w
  /\ peakMax w' = peakMax w.

(** The stored position is a number between 0 and the stored duration, which
    is a positive finite number. *)
Definition positionWithinDuration (w : WaveSurfer) : Prop :=
  exists c d : Qc,
    curPosition w = Some (JS.Fin c) /\ duration w = Some (JS.Fin d)
    /\ (Q2Qc 0 < d)%Qc /\ (Q2Qc 0 <= c)%Qc /\ (c <= d)%Qc.

(** A caller who passes [maxCanvasWidth: 101], and the example instance
    after [load(peaks, 10)]. *)
Definition oddWidthUser : UserParams :=
  mkUserParams None (Some (ContainerSelector "#waveform")) None None
    (Some (JS.of_Z 101)) None None None None None None None None None.
Definition demoLoaded : WaveSurfer :=
  snd (load demoPeaks (Some (JS.of_Z 10)) None demoInstance).
Definition demoConstructed : WaveSurfer :=
  snd (constructor demoEnv demoUser (blank demoEnv)).

(** Unfolding of the monad, the setters and the projections. *)
Ltac run :=
  cbv beta iota zeta delta
    [bind ret throw get modify emit when fireEvent
     theDrawer thePeakCache drawer_progress drawer_getWidth drawer_setWidth
     drawer_drawPeaks drawer_recenter
     set_params set_container set_drawer set_peakCache set_DrawerClass
     set_isDestroyed set_isReady set_peaks set_duration set_curPosition
     set_peakMax set_log set_scrollParent set_minPxPerSec set_backgroundColor
     params container drawer peakCache DrawerClass isDestroyed isReady
     peaks_ duration curPosition peakMax log
     backgroundColor pcontainer fillParent interact maxCanvasWidth
     minPxPerSec partialRender pixelRatio renderer responsive rtl
     scrollParent skipLength vertical getWidth progressPos
     fst snd].

(** Unfolding of [load]'s intermediate instances. *)
Ltac run_load :=
  unfold beforeDraw, afterEmpty, emptyEvents, redrawEvent, drawEvent,
    extentWidth, extentStart, extentEnd; run.

(** The instance and its [params], field by field. *)
Ltac destruct_ws w :=
  let p0 := fresh "wp" in
  let f1 := fresh "wct" in let f2 := fresh "wdr" in
  let f3 := fresh "wpc" in let f4 := fresh "wdc" in
  let f5 := fresh "wid" in let f6 := fresh "wir" in
  let f7 := fresh "wpk" in let f8 := fresh "wdu" in
  let f9 := fresh "wcp" in let f10 := fresh "wpm" in
  let f11 := fresh "wl" in
  destruct w as [p0 f1 f2 f3 f4 f5 f6 f7 f8 f9 f10 f11];
  let g1 := fresh "pbg" in let g2 := fresh "pct" in
  let g3 := fresh "pfp" in let g4 := fresh "pia" in
  let g5 := fresh "pmcw" in let g6 := fresh "pmpps" in
  let g7 := fresh "ppr" in let g8 := fresh "ppxr" in
  let g9 := fresh "prd" in let g10 := fresh "prs" in
  let g11 := fresh "prt" in let g12 := fresh "psp" in
  let g13 := fresh "psl" in let g14 := fresh "pvt" in
  destruct p0 as [g1 g2 g3 g4 g5 g6 g7 g8 g9 g10 g11 g12 g13 g14].

(** ** Facts about JavaScript numbers *)

Module JSFacts.
Import JS.

Lemma Qc_ltb_lt (a b : Qc) : Qc_ltb a b = true <-> (a < b)%Qc.
Proof.
  unfold Qc_ltb. rewrite Qclt_alt.
  destruct (a ?= b)%Qc; split; congruence.
Qed.

Lemma Qc_leb_le (a b : Qc) : Qc_leb a b = true <-> (a <= b)%Qc.
Proof.
  unfold Qc_leb. rewrite Qcle_alt.
  destruct (a ?= b)%Qc; split; congruence.
Qed.

Lemma Qc_eqb_eq (a b : Qc) : Qc_eqb a b = true <-> a = b.
Proof.
  unfold Qc_eqb. rewrite Qceq_alt.
  destruct (a ?= b)%Qc; split; congruence.
Qed.

Lemma Qc_eqb_refl (a : Qc) : Qc_eqb a a = true.
Proof. now apply Qc_eqb_eq. Qed.

Lemma Qc_ltb_irrefl (a : Qc) : Qc_ltb a a = false.
Proof.
  destruct (Qc_ltb a a) eqn:E; [|reflexivity].
  apply Qc_ltb_lt in E. exfalso. now apply (Qclt_not_eq _ _ E).
Qed.

Lemma Qc_ltb_leb_false (a b : Qc) : Qc_ltb a b = true -> Qc_leb b a = false.
Proof.
  intros H. apply Qc_ltb_lt in H.
  destruct (Qc_leb b a) eqn:E; [|reflexivity].
  apply Qc_leb_le in E. exfalso. now apply (Qclt_not_le _ _ H).
Qed.

Lemma Qc_leb_cases (a b : Qc) :
  Qc_leb a b = true -> Qc_eqb a b = true \/ Qc_ltb a b = true.
Proof.
  intros H. apply Qc_leb_le in H.
  destruct (Qcle_lt_or_eq _ _ H) as [L | E].
  - right. now apply Qc_ltb_lt.
  - left. now apply Qc_eqb_eq.
Qed.

Lemma ltb_irrefl (a : number) : ltb a a = false.
Proof. destruct a; simpl; auto using Qc_ltb_irrefl. Qed.

Lemma ltb_leb_false (a b : number) : ltb a b = true -> leb b a = false.
Proof.
  destruct a, b; simpl; try congruence; auto using Qc_ltb_leb_false.
Qed.

Lemma ltb_eqb_false (a b : number) : ltb a b = true -> eqb a b = false.
Proof.
  destruct a, b; simpl; try congruence.
  intros H. apply Qc_ltb_lt in H.
  destruct (Qc_eqb q q0) eqn:E; [|reflexivity].
  apply Qc_eqb_eq in E. exfalso. now apply (Qclt_not_eq _ _ H).
Qed.

Lemma leb_cases (a b : number) :
  leb a b = true -> eqb a b = true \/ ltb a b = true.
Proof.
  destruct a, b; simpl; try congruence; auto using Qc_leb_cases.
Qed.

Lemma eqb_refl_finite (a : number) : isFinite a = true -> eqb a a = true.
Proof. destruct a; simpl; try congruence. intros _. apply Qc_eqb_refl. Qed.

Lemma eqb_eq_finite (a b : Qc) : eqb (Fin a) (Fin b) = true <-> a = b.
Proof. simpl. apply Qc_eqb_eq. Qed.

Lemma add_zero_l (a : number) : add zero a = a.
Proof.
  destruct a; simpl; try reflexivity.
  f_equal. apply Qcplus_0_l.
Qed.

(** [Math.round] gives an integer within one half of its argument. *)
Lemma Math_round_nearest (x : Qc) :
  exists k : Z,
    Math_round (Fin x) = of_Z k
    /\ (inject_Z k - (1 # 2) <= x)%Q /\ (x < inject_Z k + (1 # 2))%Q.
Proof.
  exists (Qfloor (x + (1 # 2))). split; [reflexivity|].
  pose proof (Qfloor_le (x + (1 # 2))) as Hl.
  pose proof (Qlt_floor (x + (1 # 2))) as Hu.
  rewrite inject_Z_plus in Hu. change (inject_Z 1) with 1%Q in Hu.
  generalize dependent (inject_Z (Qfloor (x + (1 # 2)))).
  generalize (this x). intros q k Hl Hu. split; lra.
Qed.

End JSFacts.

(** ** The peak cache: a range asked for twice, and a change of width *)

Module PeakCacheFacts.
Import JS JSFacts PeakCache.

Lemma ltb_leb (a b : number) : ltb a b = true -> leb a b = true.
Proof.
  destruct a, b; simpl; try congruence.
  intros H. apply Qc_leb_le. apply Qclt_le_weak. now apply Qc_ltb_lt.
Qed.

Lemma eqb_sym (a b : number) : eqb a b = eqb b a.
Proof.
  destruct a, b; simpl; try reflexivity.
  destruct (Qc_eqb q q0) eqn:E1, (Qc_eqb q0 q) eqn:E2; try reflexivity.
  - apply Qc_eqb_eq in E1. subst. now rewrite Qc_eqb_refl in E2.
  - apply Qc_eqb_eq in E2. subst. now rewrite Qc_eqb_refl in E1.
Qed.

Lemma Math_min_same (a b : number) : ltb a b = true -> Math_min a a = a.
Proof.
  destruct a, b; simpl; try congruence; intros _;
    now rewrite Qc_ltb_irrefl.
Qed.

Lemma Math_max_same (a b : number) : ltb a b = true -> Math_max b b = b.
Proof.
  destruct a, b; simpl; try congruence; intros _;
    now rewrite Qc_ltb_irrefl.
Qed.

(** On a cache with nothing painted for the width, a proper range comes
    back whole and becomes the only painted range. *)
Lemma addRange_unpainted (c : t) (W s e : number) :
  painted c = [] \/ widthDiffers c W = true ->
  ltb s e = true ->
  addRangeToPeakCache c W s e
  = ([(s, e)], {| painted := [(s, e)]; recordedWidth := Some W |}).
Proof.
  intros Hc Hlt. unfold addRangeToPeakCache.
  assert (He : (if widthDiffers c W then [] else painted c) = []).
  { destruct Hc as [-> | ->]; [now destruct (widthDiffers c W)|reflexivity]. }
  rewrite He, (ltb_eqb_false _ _ Hlt). simpl. now rewrite Hlt.
Qed.

(** A cache whose only painted range is [(s, e)] has nothing new to give
    for [(s, e)] at the same width. *)
Lemma addRange_painted (W s e : number) :
  isFinite W = true ->
  ltb s e = true ->
  addRangeToPeakCache {| painted := [(s, e)]; recordedWidth := Some W |}
    W s e
  = ([], {| painted := [(s, e)]; recordedWidth := Some W |}).
Proof.
  intros HW Hlt. unfold addRangeToPeakCache, widthDiffers, neqb. simpl.
  rewrite (eqb_refl_finite _ HW), (ltb_eqb_false _ _ Hlt). simpl.
  rewrite (ltb_leb_false _ _ Hlt), !ltb_irrefl. simpl.
  unfold geb. rewrite (ltb_leb _ _ Hlt). simpl.
  now rewrite (Math_min_same _ _ Hlt), (Math_max_same _ _ Hlt).
Qed.

(** The degenerate range: nothing comes back and nothing is painted. *)
Lemma addRange_degenerate (c : t) (W s e : number) :
  eqb s e = true ->
  addRangeToPeakCache c W s e
  = ([], {| painted := if widthDiffers c W then [] else painted c;
            recordedWidth := Some W |}).
Proof. intros H. unfold addRangeToPeakCache. now rewrite H. Qed.

(** A width other than the recorded one: the call behaves as on a new
    cache. *)
Lemma addRange_discards (c : t) (W s e : number) :
  widthDiffers c W = true ->
  addRangeToPeakCache c W s e = addRangeToPeakCache create W s e.
Proof.
  intros H. unfold addRangeToPeakCache. now rewrite H.
Qed.

Lemma addRange_records_width (c : t) (W s e : number) :
  recordedWidth (snd (addRangeToPeakCache c W s e)) = Some W.
Proof.
  unfold addRangeToPeakCache. now destruct (eqb s e).
Qed.

End PeakCacheFacts.

(** ** How the methods run on an instance that has its drawer *)

Module Run.
Import JS JSFacts.

Lemma forLoop_draws (width : number) (rest : list PeakCache.range) :
  forall (pre : list PeakCache.range) (w : WaveSurfer) (d : Drawer),
    drawer w = Some d ->
    forLoop (List.length rest)
      (fun i =>
          w <- get ;;
          let r := nth i (pre ++ rest) (NaN, NaN) in
          drawer_drawPeaks (peaks_ w) width (Some (fst r)) (Some (snd r)))
      (List.length pre) w
    = (Return tt,
       set_log (log w ++ map (drawEvent (peaks_ w) width) rest) w).
Proof.
  induction rest as [|r rest IH]; intros pre w d Hd.
  - destruct w. simpl. run. now rewrite app_nil_r.
  - set (body := fun i : nat => _).
    assert (Hstep :
      body (List.length pre) w
      = (Return tt, set_log (log w ++ [drawEvent (peaks_ w) width r]) w)).
    { unfold body. rewrite nth_middle. destruct w. simpl in Hd. subst.
      run. reflexivity. }
    change (forLoop (List.length (r :: rest)) body (List.length pre) w)
      with (match body (List.length pre) w with
            | (Return _, w') =>
                forLoop (List.length rest) body (S (List.length pre)) w'
            | (Throw e, w') => (Throw e, w')
            end).
    rewrite Hstep. unfold body.
    specialize (IH (pre ++ [r])
                  (set_log (log w ++ [drawEvent (peaks_ w) width r]) w) d).
    rewrite <- app_assoc in IH. simpl app in IH.
    rewrite length_app in IH. simpl List.length in IH.
    replace (List.length pre + 1)%nat with (S (List.length pre)) in IH by lia.
    cbv zeta in IH. rewrite IH.
    + destruct w. run. simpl. now rewrite <- app_assoc.
    + destruct w. exact Hd.
Qed.

(** [drawBuffer] without partial rendering. *)
Lemma drawBuffer_full (w : WaveSurfer) (d : Drawer) :
  drawer w = Some d ->
  partialRender (params w) = false ->
  let x := drawExtent w (getWidth d) in
  drawBuffer w
  = (Return tt,
     set_log (log w ++ [DrawerDrawPeaks (peaks_ w) (extentWidth x)
                          (Some (extentStart x)) (Some (extentEnd x));
                        redrawEvent w (extentWidth x)]) w).
Proof.
  intros Hd Hp x. unfold drawBuffer.
  unfold bind at 1. unfold get at 1.
  unfold bind at 1. unfold drawer_getWidth, theDrawer.
  unfold bind at 1. unfold bind at 1. unfold get at 1. rewrite Hd.
  unfold ret at 1. unfold ret at 1.
  fold x. destruct x as [[W s] e] eqn:Hx. rewrite Hp.
  destruct w, d. simpl in *. subst. run.
  now rewrite <- app_assoc.
Qed.

(** [drawBuffer] with partial rendering. *)
Lemma drawBuffer_partial (w : WaveSurfer) (d : Drawer) (c : PeakCache.t) :
  drawer w = Some d ->
  partialRender (params w) = true ->
  peakCache w = Some c ->
  let x := drawExtent w (getWidth d) in
  let r := PeakCache.addRangeToPeakCache c (extentWidth x) (extentStart x)
             (extentEnd x) in
  drawBuffer w
  = (Return tt,
     set_log (log w
              ++ CacheAddRange (extentWidth x) (extentStart x) (extentEnd x)
                 :: map (drawEvent (peaks_ w) (extentWidth x)) (fst r)
              ++ [redrawEvent w (extentWidth x)])
       (set_peakCache (Some (snd r)) w)).
Proof.
  intros Hd Hp Hc x r. unfold drawBuffer.
  unfold bind at 1. unfold get at 1.
  unfold bind at 1. unfold drawer_getWidth, theDrawer.
  unfold bind at 1. unfold bind at 1. unfold get at 1. rewrite Hd.
  unfold ret at 1. unfold ret at 1.
  fold x. subst r. destruct x as [[W s] e] eqn:Hx. rewrite Hp.
  unfold extentWidth, extentStart, extentEnd. simpl fst. simpl snd.
  destruct (PeakCache.addRangeToPeakCache c W s e) as [rs c'] eqn:Hr.
  unfold bind at 1. unfold bind at 1. unfold thePeakCache.
  unfold bind at 1. unfold get at 1. rewrite Hc. unfold ret at 1.
  unfold bind at 1. unfold emit at 1, modify at 1.
  rewrite Hr.
  unfold bind at 1. unfold modify at 1.
  pose proof (@forLoop_draws W rs []
     (set_peakCache (Some c') (set_log (log w ++ [CacheAddRange W s e]) w))
     d) as HL.
  simpl app in HL. simpl List.length in HL. cbv zeta in HL.
  rewrite HL.
  - destruct w, d. simpl in *. subst. run. simpl.
    rewrite <- !app_assoc. reflexivity.
  - destruct w. exact Hd.
Qed.

(** The test of [seekTo] fails exactly on the finite numbers of [0, 1]. *)
Lemma seekToCheck_false (v : value) :
  seekToCheck v = false <-> inUnitInterval v.
Proof.
  unfold seekToCheck, inUnitInterval. split.
  - intros H. destruct v as [| | |n| | |]; simpl in H; try discriminate.
    destruct n as [| | |q]; simpl in H; try discriminate.
    exists q. split; [reflexivity|].
    apply orb_false_iff in H. destruct H as [H1 H2].
    change (inject_Z 0) with 0%Q in H1. change (inject_Z 1) with 1%Q in H2.
    split.
    + apply Qcnot_lt_le. intros L. apply Qc_ltb_lt in L. congruence.
    + apply Qcnot_lt_le. intros L. apply Qc_ltb_lt in L. congruence.
  - intros [q [-> [H0 H1]]]. simpl. unfold gtb. simpl.
    apply orb_false_iff. split.
    + destruct (Qc_ltb q (Q2Qc (inject_Z 0))) eqn:E; [|reflexivity].
      apply Qc_ltb_lt in E. exfalso. now apply (Qcle_not_lt _ _ H0).
    + destruct (Qc_ltb (Q2Qc (inject_Z 1)) q) eqn:E; [|reflexivity].
      apply Qc_ltb_lt in E. exfalso. now apply (Qcle_not_lt _ _ H1).
Qed.

Lemma seekToCheck_true (v : value) :
  seekToCheck v = true <-> ~ inUnitInterval v.
Proof.
  rewrite <- seekToCheck_false. destruct (seekToCheck v); split; congruence.
Qed.

Lemma seekTo_rejects (v : value) (w : WaveSurfer) :
  seekToCheck v = true -> seekTo v w = (Throw seekToError, w).
Proof.
  intros H. unfold seekTo. fold (seekToCheck v). now rewrite H.
Qed.

Lemma seekTo_accepts (v : value) (w : WaveSurfer) (d : Drawer) :
  seekToCheck v = false ->
  drawer w = Some d ->
  seekTo v w = (Return tt, afterSeek (numberOf v) d w).
Proof.
  intros H Hd. unfold seekTo. fold (seekToCheck v). rewrite H.
  destruct w as [[] ? ? ? ? ? ? ? ? ? ? ?], d. simpl in Hd. subst.
  unfold afterSeek, getDuration. run. simpl.
  rewrite <- !app_assoc. reflexivity.
Qed.

(** Without a drawer the call fails half-way, on [this.drawer.progress]. *)
Lemma seekTo_no_drawer (v : value) (w : WaveSurfer) :
  seekToCheck v = false ->
  drawer w = None ->
  exists w', seekTo v w = (Throw (TypeError "this.drawer is null"), w').
Proof.
  intros H Hd. unfold seekTo. fold (seekToCheck v). rewrite H.
  destruct w as [[] ? ? ? ? ? ? ? ? ? ? ?]. simpl in Hd. subst.
  unfold getDuration. run. eexists. reflexivity.
Qed.

Lemma seekToCheck_zero : seekToCheck (VNum zero) = false.
Proof. reflexivity. Qed.

Lemma empty_run (w : WaveSurfer) (d : Drawer) :
  drawer w = Some d -> empty w = (Return tt, afterEmpty d w).
Proof.
  intros Hd. unfold empty, stop.
  unfold bind at 1. unfold bind at 1.
  unfold pause at 1, emit at 1, modify at 1.
  rewrite (@seekTo_accepts (VNum zero) _ d seekToCheck_zero)
    by (destruct w; exact Hd).
  destruct w as [[] ? ? ? ? ? ? ? ? ? ? ?], d. simpl in Hd. subst.
  unfold afterEmpty, afterSeek. run. simpl.
  rewrite <- !app_assoc. reflexivity.
Qed.

End Run.

(** ** The constructor and [init] in closed form *)

Module Construct.
Import JS JSFacts.

Lemma constructor_eq (env : Env) (user : UserParams) (w0 : WaveSurfer) :
  constructor env user w0 = constructorResult env user w0.
Proof.
  unfold constructor, constructorResult, resolvedContainer,
    maxCanvasWidthError, constructorStyles.
  remember (assign (defaultParams env) user) as p eqn:Hp.
  assert (Hc : pcontainer p = pick (u_container user) ContainerNull)
    by (subst p; reflexivity).
  clear Hp. destruct w0 as [p0 c0 d0 pc0 dc0 id0 ir0 pk0 du0 cp0 pm0 l0].
  destruct p as [bg pct fp ia mcw mpps pr pxr rd rs rt sp sl vt].
  simpl in Hc. subst pct. unfold setBackgroundColor. run.
  destruct (u_container user) as [[s|e|]|]; unfold pick; run;
    try reflexivity.
  - destruct (querySelector env s); run; [|reflexivity].
    destruct (leb mcw one); run; [reflexivity|].
    destruct (eqb (rem mcw (of_Z 2)) one); run; [reflexivity|].
    destruct rt, vt, bg as [c|]; run;
      try destruct (String.eqb c ""); run;
      destruct (negb (String.eqb (typeof rd) "function")) eqn:E;
      apply (f_equal negb) in E; rewrite negb_involutive in E; simpl in E;
      rewrite E; run; simpl; rewrite ?app_nil_r, <- ?app_assoc; reflexivity.
  - destruct (leb mcw one); run; [reflexivity|].
    destruct (eqb (rem mcw (of_Z 2)) one); run; [reflexivity|].
    destruct rt, vt, bg as [c|]; run;
      try destruct (String.eqb c ""); run;
      destruct (negb (String.eqb (typeof rd) "function")) eqn:E;
      apply (f_equal negb) in E; rewrite negb_involutive in E; simpl in E;
      rewrite E; run; simpl; rewrite ?app_nil_r, <- ?app_assoc; reflexivity.
Qed.

Lemma init_run (env : Env) (f : nat) (w : WaveSurfer) :
  DrawerClass w = Some (VFun f) ->
  init env w = (Return tt, afterInit env f w).
Proof.
  intros H. unfold init, registerPlugins, createDrawer, createPeakCache,
    afterInit, initEvents.
  destruct w as [p c d pc dc id ir pk du cp pm l].
  destruct p as [bg pct fp ia mcw mpps pr pxr rd rs rt sp sl vt].
  simpl in H. subst dc. run.
  destruct rs as [| |[|]| | | |], pr; run; simpl;
    rewrite <- ?app_assoc; reflexivity.
Qed.

End Construct.

(** ** [skip]: the clamped position and the fraction it seeks to *)

Module SkipFacts.
Import JS JSFacts Run.

Lemma Qcdiv_mult_cancel (y d : Qc) : d <> Q2Qc 0 -> (y / d * d)%Qc = y.
Proof.
  intros Hd. unfold Qcdiv. rewrite <- Qcmult_assoc, Qcmult_inv_l by exact Hd.
  apply Qcmult_1_r.
Qed.

Lemma Qccompare_neq (d : Qc) : d <> Q2Qc 0 -> (d ?= Q2Qc 0)%Qc <> Eq.
Proof. intros H E. apply H. now apply Qceq_alt. Qed.

Lemma div_finite (y d : Qc) :
  d <> Q2Qc 0 -> div (Fin y) (Fin d) = Fin (y / d)%Qc.
Proof.
  intros H. simpl. pose proof (@Qccompare_neq d H) as N.
  destruct (d ?= Q2Qc 0)%Qc; congruence.
Qed.

Lemma unit_fraction (y d : Qc) :
  d <> Q2Qc 0 ->
  (y = Q2Qc 0 \/ ((Q2Qc 0 < y)%Qc /\ (y <= d)%Qc)) ->
  (Q2Qc 0 <= y / d)%Qc /\ (y / d <= Q2Qc 1)%Qc.
Proof.
  intros Hd [-> | [Hy Hyd]].
  - unfold Qcdiv. rewrite Qcmult_0_l. split; [apply Qcle_refl|].
    now apply Qc_leb_le.
  - assert (Hpos : (Q2Qc 0 < d)%Qc) by (eapply Qclt_le_trans; eauto).
    split; apply Qcmult_lt_0_le_reg_r with (z := d); try exact Hpos;
      rewrite (@Qcdiv_mult_cancel y d Hd).
    + rewrite Qcmult_0_l. now apply Qclt_le_weak.
    + now rewrite Qcmult_1_l.
Qed.

Lemma or_num_duration (v : option number) :
  notInfinite v -> exists d : Qc, or_num v one = Fin d /\ d <> Q2Qc 0.
Proof.
  intros [H1 H2].
  assert (H0 : exists d : Qc, one = Fin d /\ d <> Q2Qc 0).
  { eexists. split; [reflexivity|]. intros E.
    apply (f_equal this) in E. discriminate. }
  destruct v as [[| | |x]|]; simpl; try congruence; try exact H0.
  destruct (Qc_eqb x (Q2Qc 0)) eqn:E; simpl; [exact H0|].
  exists x. split; [reflexivity|]. intros ->.
  now rewrite Qc_eqb_refl in E.
Qed.

Lemma or_num_position (v : option number) :
  notInfinite v -> exists c : Qc, or_num v zero = Fin c.
Proof.
  intros [H1 H2].
  destruct v as [[| | |x]|]; simpl; try congruence; try (now eexists).
  destruct (Qc_eqb x (Q2Qc 0)); simpl; now eexists.
Qed.

Lemma or_num_not_NaN (v : option number) (d : number) :
  d <> NaN -> or_num v d <> NaN.
Proof.
  intros Hd. destruct v as [[| | |x]|]; simpl; try congruence.
  destruct (negb (Qc_eqb x (Q2Qc 0))); congruence.
Qed.

Lemma clamp_to_duration (d : Qc) (s : number) :
  s <> NaN ->
  exists y : Qc,
    Math_max zero (Math_min (Fin d) s) = Fin y
    /\ (y = Q2Qc 0 \/ ((Q2Qc 0 < y)%Qc /\ (y <= d)%Qc)).
Proof.
  intros Hs.
  assert (Hm : exists m, Math_min (Fin d) s = m
                         /\ (m = NegInf \/ exists x, m = Fin x /\ (x <= d)%Qc)).
  { destruct s as [| | |x]; try congruence; simpl.
    - eexists. split; [reflexivity|]. right. eexists. split; [reflexivity|].
      apply Qcle_refl.
    - eexists. split; [reflexivity|]. now left.
    - destruct (Qc_ltb x d) eqn:E; eexists; (split; [reflexivity|]); right;
        eexists; (split; [reflexivity|]).
      + apply Qclt_le_weak. now apply Qc_ltb_lt.
      + apply Qcle_refl. }
  destruct Hm as [m [-> [-> | [x [-> Hx]]]]].
  - exists (Q2Qc 0). split; [reflexivity|]. now left.
  - simpl. change (inject_Z 0) with 0%Q.
    destruct (Qc_ltb (Q2Qc 0) x) eqn:E.
    + exists x. split; [reflexivity|]. right. split; [|exact Hx].
      now apply Qc_ltb_lt.
    + exists (Q2Qc 0). split; [reflexivity|]. now left.
Qed.

Lemma add_finite_not_NaN (c : Qc) (o : number) : o <> NaN -> add (Fin c) o <> NaN.
Proof. destruct o; simpl; congruence. Qed.

Lemma scaled_fraction_within (f x : Qc) :
  (Q2Qc 0 <= f)%Qc -> (f <= Q2Qc 1)%Qc -> (Q2Qc 0 < x)%Qc ->
  (Q2Qc 0 <= f * x)%Qc /\ (f * x <= x)%Qc.
Proof.
  intros H0 H1 Hx. apply Qclt_le_weak in Hx. split.
  - rewrite <- (Qcmult_0_l x). now apply Qcmult_le_compat_r.
  - rewrite <- (Qcmult_1_l x) at 2. now apply Qcmult_le_compat_r.
Qed.

Lemma skip_progress_unit (w : WaveSurfer) (offset : option number) :
  notInfinite (duration w) -> notInfinite (curPosition w) ->
  exists y d : Qc,
    skip_duration w = Fin d /\ d <> Q2Qc 0
    /\ skip_position w offset = Fin y
    /\ skip_progress w offset = Fin (y / d)%Qc
    /\ (Q2Qc 0 <= y / d)%Qc /\ (y / d <= Q2Qc 1)%Qc.
Proof.
  intros Hd Hc. unfold skip_progress, skip_position, skip_duration.
  destruct (@or_num_duration _ Hd) as [d [-> Hd0]].
  destruct (@or_num_position _ Hc) as [c ->].
  assert (Hz : zero <> NaN) by discriminate.
  destruct (@clamp_to_duration d _
              (@add_finite_not_NaN c _ (@or_num_not_NaN offset _ Hz)))
    as [y [-> Hy]].
  exists y, d. rewrite (@div_finite y d Hd0).
  repeat split; try assumption; now apply unit_fraction.
Qed.

Lemma skip_run (w : WaveSurfer) (offset : option number) (d : Drawer) :
  seekToCheck (VNum (skip_progress w offset)) = false ->
  drawer w = Some d ->
  skip offset w
  = (Return tt,
     set_log (log (afterSeek (skip_progress w offset) d w)
              ++ [DrawerRecenter (skip_progress w offset)])
       (afterSeek (skip_progress w offset) d w)).
Proof.
  intros Hc Hd. unfold skip, seekAndCenter.
  unfold bind at 1. unfold get at 1.
  unfold bind at 1. rewrite (@seekTo_accepts _ _ _ Hc Hd).
  destruct w, d. simpl in Hd. subst. unfold afterSeek. run. reflexivity.
Qed.

End SkipFacts.

(** ** [maxCanvasWidth]: the two tests on whole numbers *)

Module Validation.
Import JS JSFacts.

Lemma this_Q2Qc (q : Q) : (this (Q2Qc q) == q)%Q.
Proof. simpl. apply Qred_correct. Qed.

Lemma leb_of_Z (a b : Z) : leb (of_Z a) (of_Z b) = (a <=? b)%Z.
Proof.
  unfold of_Z, of_Q. simpl.
  destruct (Qc_leb (Q2Qc (inject_Z a)) (Q2Qc (inject_Z b))) eqn:E.
  - apply Qc_leb_le in E. unfold Qcle in E. rewrite !this_Q2Qc in E.
    rewrite <- Zle_Qle in E. symmetry. now apply Z.leb_le.
  - symmetry. apply Z.leb_gt. apply Z.lt_nge. intros H.
    assert (Qc_leb (Q2Qc (inject_Z a)) (Q2Qc (inject_Z b)) = true).
    { apply Qc_leb_le. unfold Qcle. rewrite !this_Q2Qc.
      now rewrite <- Zle_Qle. }
    congruence.
Qed.

Lemma Qtrunc_comp (p q : Q) : (p == q)%Q -> Qtrunc p = Qtrunc q.
Proof.
  intros H. unfold Qtrunc. rewrite H. destruct (Qle_bool 0 q).
  - now apply Qfloor_comp.
  - now apply Qceiling_comp.
Qed.

Lemma rem_of_Z_2 (z : Z) :
  (0 <= z)%Z -> rem (of_Z z) (of_Z 2) = of_Z (z mod 2).
Proof.
  intros Hz. unfold of_Z, of_Q, rem.
  change (Q2Qc (inject_Z 2) ?= Q2Qc 0)%Qc with Gt. cbv iota.
  f_equal. apply Qc_is_canon.
  assert (Ht : forall q : Q, (q == inject_Z z / inject_Z 2)%Q ->
                             Qtrunc q = (z / 2)%Z).
  { intros q Hq. rewrite (Qtrunc_comp Hq). unfold Qtrunc.
    assert (Hle : Qle_bool 0 (inject_Z z / inject_Z 2) = true).
    { apply Qle_bool_iff. apply Qle_shift_div_l; [reflexivity|].
      rewrite Qmult_0_l. change 0%Q with (inject_Z 0).
      now rewrite <- Zle_Qle. }
    rewrite Hle. symmetry. apply Zdiv_Qdiv. }
  rewrite Ht.
  - unfold Qcminus, Qcplus, Qcopp, Qcmult. rewrite !this_Q2Qc.
    rewrite (Z.mod_eq z 2) by discriminate.
    unfold Z.sub. rewrite inject_Z_plus, inject_Z_opp, inject_Z_mult.
    reflexivity.
  - unfold Qcdiv, Qcmult, Qcinv. rewrite !this_Q2Qc. reflexivity.
Qed.

Lemma eqb_of_Z (a b : Z) : eqb (of_Z a) (of_Z b) = (a =? b)%Z.
Proof.
  unfold of_Z, of_Q. simpl.
  destruct (Qc_eqb (Q2Qc (inject_Z a)) (Q2Qc (inject_Z b))) eqn:E.
  - apply Qc_eqb_eq in E. apply Q2Qc_eq_iff in E.
    symmetry. apply Z.eqb_eq. now apply inject_Z_injective.
  - symmetry. apply Z.eqb_neq. intros ->. now rewrite Qc_eqb_refl in E.
Qed.

Lemma maxCanvasWidthError_integer (z : Z) :
  maxCanvasWidthError (of_Z z) = None <-> (1 < z)%Z /\ Z.even z = true.
Proof.
  unfold maxCanvasWidthError, one. rewrite leb_of_Z.
  destruct (z <=? 1)%Z eqn:E.
  - apply Z.leb_le in E. split; [discriminate|]. intros [H _]. lia.
  - apply Z.leb_gt in E. rewrite rem_of_Z_2 by lia. rewrite eqb_of_Z.
    rewrite Zeven_mod. 
    pose proof (Z.mod_pos_bound z 2 eq_refl) as Hb.
    destruct (z mod 2 =? 1)%Z eqn:E1.
    + apply Z.eqb_eq in E1. split; [discriminate|]. intros [_ H].
      apply Z.eqb_eq in H. lia.
    + apply Z.eqb_neq in E1. split; [|reflexivity]. intros _.
      split; [exact E|]. apply Z.eqb_eq. lia.
Qed.

End Validation.

(** ** [create], [load] and [drawBuffer]: the remaining cases *)

Module LoadFacts.
Import JS JSFacts PeakCacheFacts Run Construct.

Lemma create_run (env : Env) (user : UserParams) (w : WaveSurfer) :
  create env user = (Return tt, w) ->
  exists f,
    renderer (assign (defaultParams env) user) = VFun f
    /\ resolvedContainer env user <> None
    /\ maxCanvasWidthError (maxCanvasWidth (assign (defaultParams env) user))
       = None
    /\ params w = assign (defaultParams env) user
    /\ drawer w = Some (newDrawer env f (resolvedContainer env user))
    /\ peakCache w
       = (if partialRender (params w) then Some PeakCache.create else None).
Proof.
  unfold create. unfold bind. rewrite constructor_eq.
  unfold constructorResult.
  destruct (resolvedContainer env user) as [c|] eqn:Hc; [|discriminate].
  destruct (maxCanvasWidthError _) eqn:Hm; [discriminate|].
  destruct (renderer (assign (defaultParams env) user)) as [| | | | | |f] eqn:Hr;
    cbn [typeof String.eqb Ascii.eqb Bool.eqb fst snd]; try discriminate.
  intros H.
  match type of H with
  | init env ?w1 = _ =>
      rewrite (@init_run env f w1 (eq_refl (Some (VFun f)))) in H
  end.
  injection H as <-. exists f.
  repeat split; try reflexivity; try congruence.
Qed.


Lemma load_steps (p : option peaks) (d pmax : option number)
  (w : WaveSurfer) (dr : Drawer) :
  loadRejects p d = false ->
  drawer w = Some dr ->
  load p d pmax w
  = match drawBuffer (beforeDraw p d pmax dr w) with
    | (Return _, w') =>
        (Return tt, set_log (log w' ++ [FireEvent "ready" []])
                      (set_isReady true w'))
    | (Throw e, w') => (Throw e, w')
    end.
Proof.
  unfold loadRejects, load. intros H Hd.
  destruct p as [pk|]; [|discriminate].
  apply orb_false_iff in H. destruct H as [H1 H2]. rewrite H1, H2.
  unfold bind at 1. rewrite (@empty_run w dr Hd).
  unfold bind at 1. unfold modify at 1.
  unfold bind at 1. unfold modify at 1.
  unfold bind at 1. unfold modify at 1.
  unfold bind at 1. fold (beforeDraw (Some pk) d pmax dr w).
  destruct (drawBuffer (beforeDraw (Some pk) d pmax dr w)) as [[[]|e] w'];
    [|reflexivity].
  destruct w'. run. reflexivity.
Qed.

Lemma drawBuffer_no_drawer (w : WaveSurfer) :
  drawer w = None ->
  drawBuffer w = (Throw (TypeError "this.drawer is null"), w).
Proof.
  intros Hd. unfold drawBuffer, drawer_getWidth, theDrawer.
  destruct w. simpl in Hd. subst. reflexivity.
Qed.

Lemma drawBuffer_no_cache (w : WaveSurfer) (d : Drawer) :
  drawer w = Some d ->
  partialRender (params w) = true ->
  peakCache w = None ->
  drawBuffer w = (Throw (TypeError "this.peakCache is null"), w).
Proof.
  intros Hd Hp Hc. unfold drawBuffer.
  unfold bind at 1. unfold get at 1.
  unfold bind at 1. unfold drawer_getWidth, theDrawer.
  unfold bind at 1. unfold bind at 1. unfold get at 1. rewrite Hd.
  unfold ret at 1. unfold ret at 1.
  destruct (drawExtent w (getWidth d)) as [[W s] e]. rewrite Hp.
  destruct w. simpl in *. subst. reflexivity.
Qed.




(** [load] with partial rendering on an instance that fills its parent. *)
Lemma load_partial_run (p : option peaks) (d pmax : option number)
  (w : WaveSurfer) (dr : Drawer) (c : PeakCache.t) (pw : number) :
  loadRejects p d = false ->
  drawer w = Some dr ->
  getWidth dr = pw ->
  partialRender (params w) = true ->
  fillParent (params w) = true ->
  scrollParent (params w) = false ->
  peakCache w = Some c ->
  let r := PeakCache.addRangeToPeakCache c pw zero pw in
  exists w',
    load p d pmax w = (Return tt, w')
    /\ drawer w' = Some (mkDrawer pw (Some zero))
    /\ params w' = params w
    /\ peakCache w' = Some (snd r)
    /\ log w' = log w ++ emptyEvents dr w
                ++ CacheAddRange pw zero pw
                   :: map (drawEvent p pw) (fst r)
                ++ [FireEvent "redraw" [APeaks p; ANum pw];
                    FireEvent "ready" []].
Proof.
  intros Hr Hdr Hpw Hp Hf Hs Hc r.
  rewrite (@load_steps p d pmax w dr Hr Hdr).
  set (w2 := beforeDraw p d pmax dr w).
  assert (Hd2 : drawer w2 = Some (mkDrawer (getWidth dr) (Some zero)))
    by (destruct w; reflexivity).
  assert (Hp2 : partialRender (params w2) = true)
    by (destruct w; exact Hp).
  assert (Hc2 : peakCache w2 = Some c) by (destruct w; exact Hc).
  assert (Hx : drawExtent w2 (getWidth dr) = (pw, zero, pw)).
  { unfold drawExtent.
    assert (E1 : fillParent (params w2) = true) by (destruct w; exact Hf).
    assert (E2 : scrollParent (params w2) = false) by (destruct w; exact Hs).
    rewrite E1, E2, Hpw. reflexivity. }
  pose proof (@drawBuffer_partial w2 _ c Hd2 Hp2 Hc2) as H.
  cbv zeta in H. cbn [getWidth] in H. rewrite Hx in H.
  unfold extentWidth, extentStart, extentEnd in H. cbn [fst snd] in H.
  fold r in H. rewrite H. clear H Hx.
  eexists. split; [reflexivity|]. clearbody r.
  subst w2. destruct_ws w. cbn [drawer] in Hdr. subst.
  run_load. cbn [getWidth]. repeat split.
  repeat (progress (rewrite <- ?app_assoc; cbn [app])). reflexivity.
Qed.


End LoadFacts.

(** ** The properties *)

Import JS JSFacts PeakCacheFacts Run Construct SkipFacts Validation LoadFacts.

(** C10. [getPlayedPercents()] returns the quotient of the current time by
    the duration when that quotient is a finite number other than 0, and 0
    when the quotient is 0 or [NaN]; it never returns [NaN]; in the empty
    state, where both are 0, it returns 0.  The instance is left as it
    was. *)
Theorem getPlayedPercents_quotient (w : WaveSurfer) :
  let q := div (toNumber (curPosition w)) (toNumber (duration w)) in
  (forall x : Qc, q = Fin x -> x <> Q2Qc 0 ->
     getPlayedPercents w = (Return q, w))
  /\ (q = NaN \/ q = zero -> getPlayedPercents w = (Return zero, w))
  /\ fst (getPlayedPercents w) <> Return NaN
  /\ (curPosition w = Some zero -> duration w = Some zero ->
      getPlayedPercents w = (Return zero, w)).
Proof.
  intros q.
  assert (H : getPlayedPercents w = (Return (or_else q zero), w))
    by reflexivity.
  rewrite H. clear H. unfold or_else. repeat split.
  - intros x Hq Hx. rewrite Hq. simpl.
    destruct (Qc_eqb x (Q2Qc 0)) eqn:E; [|reflexivity].
    apply Qc_eqb_eq in E. contradiction.
  - intros [-> | ->]; reflexivity.
  - destruct q as [| | |x]; simpl; try discriminate.
    destruct (Qc_eqb x (Q2Qc 0)); simpl; discriminate.
  - intros Hc Hd. subst q. rewrite Hc, Hd. reflexivity.
Qed.

(** C8. On an instance that has its drawer, [seekTo(progress)] raises if and
    only if [progress] is not a finite number between 0 and 1 inclusive.
    When it raises, the instance is exactly as before the call (position,
    drawer, [params.scrollParent], log).  When it succeeds,
    [params.scrollParent] (indeed all of [params]) is as before the call,
    the position is [progress * duration], and the drawer was told the
    progress while [scrollParent] was overridden to [false]. *)
Theorem seekTo_validates_first (progress : value) (w : WaveSurfer)
  (d : Drawer) :
  drawer w = Some d ->
  ((exists e, fst (seekTo progress w) = Throw e) <-> ~ inUnitInterval progress)
  /\ (~ inUnitInterval progress -> seekTo progress w = (Throw seekToError, w))
  /\ (inUnitInterval progress ->
      exists w',
        seekTo progress w = (Return tt, w')
        /\ scrollParent (params w') = scrollParent (params w)
        /\ params w' = params w
        /\ curPosition w'
           = Some (mul (numberOf progress) (toNumber (duration w)))
        /\ drawer w' = Some (mkDrawer (getWidth d) (Some (numberOf progress)))
        /\ In (DrawerProgress (numberOf progress) false) (log w')).
Proof.
  intros Hd.
  assert (Hacc : inUnitInterval progress ->
                 seekTo progress w
                 = (Return tt, afterSeek (numberOf progress) d w)).
  { intros H. apply seekTo_accepts; [now apply seekToCheck_false|exact Hd]. }
  assert (Hrej : ~ inUnitInterval progress ->
                 seekTo progress w = (Throw seekToError, w)).
  { intros H. apply seekTo_rejects. now apply seekToCheck_true. }
  split; [|split].
  - split.
    + intros [e He] Hin. rewrite (Hacc Hin) in He. discriminate.
    + intros H. rewrite (Hrej H). now eexists.
  - exact Hrej.
  - intros H. exists (afterSeek (numberOf progress) d w).
    split; [exact (Hacc H)|].
    destruct w. unfold afterSeek. simpl.
    repeat split; try reflexivity.
    apply in_or_app. right. simpl. auto.
Qed.

(** C9, as amended.  When neither the stored duration nor the stored
    position is an infinity, then for every offset (a number or
    [undefined]): [skip] clamps the target position to
    [max(0, min(D, current + offset))], where [D] is the duration, or 1 when
    the duration is falsy, and a falsy [current] or [offset] counts as 0;
    the fraction [target / D] it seeks to is a finite number in [0, 1], so
    [skip] never raises the error of [seekTo].  On an instance with its
    drawer the call returns and the drawer is recentred on the fraction.
    The stored position becomes the product [fraction * duration] that
    [seekTo] computes, not the target itself: a number between 0 and the
    duration when the duration is a positive finite number, 0 when the
    duration is 0, and [NaN] when the duration is [undefined]. *)
Theorem skip_seeks_within_unit_interval (w : WaveSurfer)
  (offset : option number) :
  notInfinite (duration w) ->
  notInfinite (curPosition w) ->
  let D := or_num (duration w) one in
  let target :=
    Math_max zero
      (Math_min D (add (or_num (curPosition w) zero) (or_num offset zero))) in
  let progress := div target D in
  inUnitInterval (VNum progress)
  /\ (forall msg, fst (skip offset w) <> Throw (Error msg))
  /\ (forall d, drawer w = Some d ->
      exists w',
        skip offset w = (Return tt, w')
        /\ curPosition w' = Some (mul progress (toNumber (duration w)))
        /\ (forall x : Qc,
              duration w = Some (Fin x) -> (Q2Qc 0 < x)%Qc ->
              exists c : Qc,
                curPosition w' = Some (Fin c)
                /\ (Q2Qc 0 <= c)%Qc /\ (c <= x)%Qc)
        /\ (duration w = Some zero -> curPosition w' = Some zero)
        /\ (duration w = None -> curPosition w' = Some NaN)
        /\ In (DrawerRecenter progress) (log w')).
Proof.
  intros Hd Hc D target progress.
  destruct (@skip_progress_unit w offset Hd Hc)
    as [y [d [HD [Hd0 [Hpos [Hprog [H0 H1]]]]]]].
  change D with (skip_duration w) in *.
  change target with (skip_position w offset) in *.
  change progress with (skip_progress w offset) in *.
  assert (Hin : inUnitInterval (VNum (skip_progress w offset))).
  { exists (y / d)%Qc. rewrite Hprog. auto. }
  assert (Hchk : seekToCheck (VNum (skip_progress w offset)) = false)
    by now apply seekToCheck_false.
  split; [exact Hin|]. split.
  - intros msg. destruct (drawer w) as [dr|] eqn:Hdr.
    + rewrite (@skip_run w offset dr Hchk Hdr). discriminate.
    + unfold skip, seekAndCenter. unfold bind at 1. unfold get at 1.
      unfold bind at 1.
      destruct (@seekTo_no_drawer _ w Hchk Hdr) as [w' ->]. discriminate.
  - intros dr Hdr. eexists. split; [exact (@skip_run w offset dr Hchk Hdr)|].
    assert (E : curPosition
                  (set_log (log (afterSeek (skip_progress w offset) dr w)
                            ++ [DrawerRecenter (skip_progress w offset)])
                     (afterSeek (skip_progress w offset) dr w))
                = Some (mul (skip_progress w offset)
                          (toNumber (duration w))))
      by (destruct w; reflexivity).
    split; [exact E|]. rewrite E, Hprog.
    split; [|split; [|split]].
    + intros x Hx Hxpos. rewrite Hx. cbn [toNumber mul].
      exists (y / d * x)%Qc. split; [reflexivity|].
      now apply scaled_fraction_within.
    + intros ->. cbn [toNumber zero of_Z of_Q mul]. unfold zero, of_Z, of_Q.
      do 2 f_equal. apply Qcmult_0_r.
    + intros ->. reflexivity.
    + destruct w. simpl. apply in_or_app. right. simpl. auto.
Qed.

(** C9 as stated fails.  After [load(peaks, Infinity)], [skip(Infinity)]
    raises the error of [seekTo]; and in the empty state (duration 0),
    [skip(0.5)] computes the target 0.5 but the stored position stays 0. *)
Lemma skip_counterexample :
  (let w := snd (load demoPeaks (Some PosInf) None demoInstance) in
   fst (load demoPeaks (Some PosInf) None demoInstance) = Return tt
   /\ duration w = Some PosInf
   /\ fst (skip (Some PosInf) w) = Throw seekToError)
  /\ (let w := snd (empty demoInstance) in
      duration w = Some zero
      /\ skip_position w (Some (of_Q (1 # 2))) = of_Q (1 # 2)
      /\ curPosition (snd (skip (Some (of_Q (1 # 2))) w)) = Some zero).
Proof.
  vm_compute. repeat split.
  do 2 f_equal. apply Qc_is_canon. reflexivity.
Qed.



(** C4. For widths [W1 != W2], and from any cache, [addRange(W1, 0, 10)]
    followed by [addRange(W2, 0, 10)] returns [[0, 10)] in full the second
    time and leaves it as the only painted range.  In general a call whose
    width differs from the recorded one behaves as on a new cache. *)
Theorem addRange_width_change (c : PeakCache.t) (W1 W2 : number) :
  neqb W1 W2 = true ->
  let first := PeakCache.addRangeToPeakCache c W1 (of_Z 0) (of_Z 10) in
  PeakCache.addRangeToPeakCache (snd first) W2 (of_Z 0) (of_Z 10)
  = ([(of_Z 0, of_Z 10)],
     {| PeakCache.painted := [(of_Z 0, of_Z 10)];
        PeakCache.recordedWidth := Some W2 |})
  /\ (forall (c0 : PeakCache.t) (W0 W s e : number),
        PeakCache.recordedWidth c0 = Some W0 ->
        neqb W W0 = true ->
        PeakCache.addRangeToPeakCache c0 W s e
        = PeakCache.addRangeToPeakCache PeakCache.create W s e).
Proof.
  intros H first. split.
  - apply addRange_unpainted; [|reflexivity].
    right. unfold PeakCache.widthDiffers. subst first.
    rewrite addRange_records_width. unfold neqb in *.
    now rewrite eqb_sym.
  - intros c0 W0 W s e Hr Hn. apply addRange_discards.
    unfold PeakCache.widthDiffers. now rewrite Hr.
Qed.

(** C4 at the widths 20 and 40. *)
Lemma addRange_width_change_witness :
  PeakCache.addRangeToPeakCache
    (snd (PeakCache.addRangeToPeakCache PeakCache.create (of_Z 20)
            (of_Z 0) (of_Z 10)))
    (of_Z 40) (of_Z 0) (of_Z 10)
  = ([(of_Z 0, of_Z 10)],
     {| PeakCache.painted := [(of_Z 0, of_Z 10)];
        PeakCache.recordedWidth := Some (of_Z 40) |}).
Proof.
  apply (@addRange_width_change PeakCache.create (of_Z 20) (of_Z 40)).
  reflexivity.
Defined.

Lemma drawCalls_tail (l : list event) (a b : event) :
  isDrawPeaks a = false -> isDrawPeaks b = false ->
  drawCalls (l ++ [a; b]) = drawCalls l.
Proof.
  intros Ha Hb. unfold drawCalls. rewrite filter_app. simpl.
  rewrite Ha, Hb. apply app_nil_r.
Qed.

(** C3, as amended.  For a finite width [W] and a cache that holds nothing
    for it: a range [s < e] asked for twice in a row comes back whole the
    first time and not at all the second time; the degenerate range
    [s == e] comes back empty both times.  Consequently, with partial
    rendering, a [drawBuffer] that follows a [drawBuffer] over the same
    extent [s <= e] at the same width queries the cache and calls
    [drawPeaks] not once. *)
Theorem addRange_twice (c : PeakCache.t) (W s e : number) :
  isFinite W = true ->
  PeakCache.painted c = [] \/ PeakCache.widthDiffers c W = true ->
  let first := PeakCache.addRangeToPeakCache c W s e in
  let second := PeakCache.addRangeToPeakCache (snd first) W s e in
  (ltb s e = true -> fst first = [(s, e)] /\ fst second = [])
  /\ (eqb s e = true -> fst first = [] /\ fst second = [])
  /\ (forall (w : WaveSurfer) (d : Drawer),
        drawer w = Some d ->
        partialRender (params w) = true ->
        peakCache w = Some c ->
        drawExtent w (getWidth d) = (W, s, e) ->
        leb s e = true ->
        exists w1 w2,
          drawBuffer w = (Return tt, w1)
          /\ drawBuffer w1 = (Return tt, w2)
          /\ log w2 = log w1 ++ [CacheAddRange W s e; redrawEvent w W]
          /\ drawCalls (log w2) = drawCalls (log w1)).
Proof.
  intros HW Hc first second.
  assert (Hlt : ltb s e = true ->
                first = ([(s, e)], {| PeakCache.painted := [(s, e)];
                                      PeakCache.recordedWidth := Some W |})
                /\ second = ([], {| PeakCache.painted := [(s, e)];
                                    PeakCache.recordedWidth := Some W |})).
  { intros H. subst second first.
    rewrite (@addRange_unpainted c W s e Hc H). simpl snd.
    now rewrite (@addRange_painted W s e HW H). }
  assert (Heq : eqb s e = true ->
                first = ([], {| PeakCache.painted := [];
                                PeakCache.recordedWidth := Some W |})
                /\ second = ([], {| PeakCache.painted := [];
                                    PeakCache.recordedWidth := Some W |})).
  { intros H.
    assert (E : (if PeakCache.widthDiffers c W then []
                 else PeakCache.painted c) = []).
    { destruct Hc as [-> | ->]; [now destruct (PeakCache.widthDiffers c W)
                                |reflexivity]. }
    assert (H1 : first = ([], {| PeakCache.painted := [];
                                 PeakCache.recordedWidth := Some W |})).
    { subst first. rewrite (@addRange_degenerate c W s e H). now rewrite E. }
    split; [exact H1|]. subst second. rewrite H1.
    rewrite (@addRange_degenerate _ W s e H). cbn [snd PeakCache.painted].
    match goal with
    | |- context [if ?b then _ else _] => destruct b
    end; reflexivity. }
  split; [|split].
  - intros H. destruct (Hlt H) as [-> ->]. auto.
  - intros H. destruct (Heq H) as [-> ->]. auto.
  - intros w d Hd Hp Hpc Hx Hle.
    assert (Hsnd : fst second = []).
    { destruct (leb_cases _ _ Hle) as [H | H].
      - now destruct (Heq H) as [_ ->].
      - now destruct (Hlt H) as [_ ->]. }
    pose proof (@drawBuffer_partial w d c Hd Hp Hpc) as H1.
    cbv zeta in H1. rewrite Hx in H1.
    unfold extentWidth, extentStart, extentEnd in H1.
    cbn [fst snd] in H1. fold first in H1.
    set (w1 := set_log _ (set_peakCache (Some (snd first)) w)) in H1.
    assert (Hd1 : drawer w1 = Some d) by (destruct w; exact Hd).
    assert (Hp1 : partialRender (params w1) = true) by (destruct w; exact Hp).
    assert (Hc1 : peakCache w1 = Some (snd first)) by (destruct w; reflexivity).
    assert (Hx1 : drawExtent w1 (getWidth d) = (W, s, e))
      by (destruct w; exact Hx).
    pose proof (@drawBuffer_partial w1 d (snd first) Hd1 Hp1 Hc1) as H2.
    cbv zeta in H2. rewrite Hx1 in H2.
    unfold extentWidth, extentStart, extentEnd in H2.
    cbn [fst snd] in H2. fold second in H2. rewrite Hsnd in H2.
    cbn [map app] in H2.
    eexists. eexists. split; [exact H1|]. split; [exact H2|].
    assert (Hr : redrawEvent w1 W = redrawEvent w W) by (destruct w; reflexivity).
    assert (Hlog : log (set_log (log w1 ++ [CacheAddRange W s e; redrawEvent w1 W])
                   (set_peakCache (Some (snd second)) w1))
                   = log w1 ++ [CacheAddRange W s e; redrawEvent w W]).
    { rewrite <- Hr. destruct w1. reflexivity. }
    split; [exact Hlog|]. rewrite Hlog. now apply drawCalls_tail.
Qed.

(** C3 as stated fails at [s = e]: on a new cache [addRange(20, 5, 5)]
    returns the empty sequence, not the single range [[5, 5)]. *)
Lemma addRange_twice_counterexample :
  ~ (forall W s e : number,
       leb s e = true ->
       fst (PeakCache.addRangeToPeakCache PeakCache.create W s e) = [(s, e)]
       /\ fst (PeakCache.addRangeToPeakCache
                 (snd (PeakCache.addRangeToPeakCache PeakCache.create W s e))
                 W s e) = []).
Proof.
  intros H.
  destruct (H (of_Z 20) (of_Z 5) (of_Z 5) eq_refl) as [H1 _].
  discriminate H1.
Qed.

(** C1. On an instance with its drawer: without partial rendering,
    [drawBuffer] calls [drawPeaks] exactly once, over [start, end), then
    fires ['redraw'], and changes nothing else (the cache is not
    consulted); with partial rendering it first asks the cache with
    [(width, start, end)], then calls [drawPeaks] once per returned range,
    in order and with that range's bounds, then fires ['redraw'].  After
    [create], the peak cache exists exactly when partial rendering is
    on. *)
Theorem drawBuffer_draw_calls (w : WaveSurfer) (d : Drawer) :
  drawer w = Some d ->
  let x := drawExtent w (getWidth d) in
  let W := extentWidth x in
  let s := extentStart x in
  let e := extentEnd x in
  (partialRender (params w) = false ->
     drawBuffer w
     = (Return tt,
        set_log (log w ++ [DrawerDrawPeaks (peaks_ w) W (Some s) (Some e);
                           redrawEvent w W]) w))
  /\ (forall c : PeakCache.t,
        partialRender (params w) = true ->
        peakCache w = Some c ->
        let r := PeakCache.addRangeToPeakCache c W s e in
        drawBuffer w
        = (Return tt,
           set_log (log w
                    ++ CacheAddRange W s e
                       :: map (drawEvent (peaks_ w) W) (fst r)
                    ++ [redrawEvent w W])
             (set_peakCache (Some (snd r)) w)))
  /\ (forall (env : Env) (user : UserParams) (w0 : WaveSurfer),
        create env user = (Return tt, w0) ->
        drawer w0 <> None
        /\ peakCache w0
           = (if partialRender (params w0) then Some PeakCache.create
              else None)).
Proof.
  intros Hd x W s e. split; [|split].
  - intros Hp. exact (@drawBuffer_full w d Hd Hp).
  - intros c Hp Hc. exact (@drawBuffer_partial w d c Hd Hp Hc).
  - intros env user w0 H.
    destruct (@create_run env user w0 H) as [f [_ [_ [_ [_ [H1 H2]]]]]].
    split; [congruence|exact H2].
Qed.

(** C2. [drawBuffer] takes as nominal width
    [Math.round(duration * minPxPerSec * pixelRatio)], an integer within one
    half of the product.  When [fillParent] is set and either [scrollParent]
    is unset or the nominal width is less than the parent width, the width
    is the parent width and the range is [0, parentWidth); otherwise the
    width is the nominal width and the range is
    [0, max(parentWidth, nominalWidth)).  These are the width and range
    given to [drawPeaks], or to the cache under partial rendering. *)
Theorem drawBuffer_extent (w : WaveSurfer) (d : Drawer) :
  drawer w = Some d ->
  let pw := getWidth d in
  let n := nominalWidth w in
  let fill :=
    fillParent (params w)
    && (negb (scrollParent (params w)) || ltb n pw) in
  let W := if fill then pw else n in
  let E := if fill then pw else Math_max pw n in
  n = Math_round (mul (mul (toNumber (duration w)) (minPxPerSec (params w)))
                    (pixelRatio (params w)))
  /\ (forall q : Qc,
        mul (mul (toNumber (duration w)) (minPxPerSec (params w)))
          (pixelRatio (params w)) = Fin q ->
        exists k : Z,
          n = of_Z k
          /\ (inject_Z k - (1 # 2) <= q)%Q /\ (q < inject_Z k + (1 # 2))%Q)
  /\ drawExtent w pw = (W, zero, E)
  /\ (partialRender (params w) = false ->
      drawBuffer w
      = (Return tt,
         set_log (log w ++ [DrawerDrawPeaks (peaks_ w) W (Some zero) (Some E);
                            redrawEvent w W]) w))
  /\ (forall c : PeakCache.t,
        partialRender (params w) = true ->
        peakCache w = Some c ->
        exists w' rest,
          drawBuffer w = (Return tt, w')
          /\ log w' = log w ++ CacheAddRange W zero E :: rest
                      ++ [redrawEvent w W]).
Proof.
  intros Hd pw n fill W E.
  assert (Hx : drawExtent w pw = (W, zero, E)).
  { unfold drawExtent. fold n. fold fill. subst W E.
    destruct fill; [reflexivity|]. now rewrite add_zero_l. }
  split; [reflexivity|]. split; [|split; [exact Hx|split]].
  - intros q Hq. unfold n, nominalWidth. rewrite Hq.
    apply Math_round_nearest.
  - intros Hp. pose proof (@drawBuffer_full w d Hd Hp) as H.
    cbv zeta in H. fold pw in H. rewrite Hx in H. exact H.
  - intros c Hp Hc. pose proof (@drawBuffer_partial w d c Hd Hp Hc) as H.
    cbv zeta in H. fold pw in H. rewrite Hx in H.
    unfold extentWidth, extentStart, extentEnd in H. cbn [fst snd] in H.
    eexists. eexists. split; [exact H|]. destruct w. reflexivity.
Qed.

(** C7. A constructor call whose [renderer] is not a function always
    raises, with no drawer created; the error is
    ['Renderer parameter is invalid'] whenever the container is found and
    [maxCanvasWidth] passes its tests (those are checked first).  A
    function as [renderer] never gives that error. *)
Theorem constructor_renderer_check (env : Env) (user : UserParams) :
  let p := assign (defaultParams env) user in
  let result := constructor env user (blank env) in
  (typeof (renderer p) <> "function"%string ->
     (exists e, fst result = Throw e)
     /\ (resolvedContainer env user <> None ->
         maxCanvasWidthError (maxCanvasWidth p) = None ->
         fst result = Throw (Error "Renderer parameter is invalid"))
     /\ drawer (snd result) = None
     /\ ~ In DrawerInit (log (snd result)))
  /\ (typeof (renderer p) = "function"%string ->
      fst result <> Throw (Error "Renderer parameter is invalid")).
Proof.
  intros p result. subst result. rewrite constructor_eq.
  unfold constructorResult. fold p.
  assert (Hlog : ~ In DrawerInit ([] ++ constructorStyles p)).
  { cbn [app]. unfold constructorStyles. intros F. apply in_app_or in F.
    destruct F as [F | F].
    - destruct (rtl p); simpl in F; intuition discriminate.
    - destruct (backgroundColor p) as [c|]; [|inversion F].
      destruct (String.eqb c ""); simpl in F; intuition discriminate. }
  assert (Hm : forall e, maxCanvasWidthError (maxCanvasWidth p) = Some e ->
                         e <> Error "Renderer parameter is invalid").
  { unfold maxCanvasWidthError. intros e He.
    destruct (leb _ one); [injection He as <-; discriminate|].
    destruct (eqb _ one); [injection He as <-|]; discriminate. }
  split.
  - intros Hr.
    assert (E : String.eqb (typeof (renderer p)) "function" = false)
      by now apply String.eqb_neq.
    destruct (resolvedContainer env user) as [c|].
    + destruct (maxCanvasWidthError (maxCanvasWidth p)) as [e|].
      * cbn [fst snd]. repeat split; try reflexivity.
        -- now eexists.
        -- discriminate.
        -- intros F; inversion F.
      * rewrite E. cbn [fst snd]. repeat split; try reflexivity.
        -- now eexists.
        -- exact Hlog.
    + cbn [fst snd]. repeat split; try reflexivity.
      * now eexists.
      * intros F. now contradiction F.
      * intros F; inversion F.
  - intros Hr. apply String.eqb_eq in Hr. rewrite Hr.
    destruct (resolvedContainer env user) as [c|]; [|discriminate].
    destruct (maxCanvasWidthError (maxCanvasWidth p)) as [e|] eqn:He;
      [|discriminate].
    cbn [fst]. intros F. injection F as F. now apply (Hm e).
Qed.

(** C5 at [maxCanvasWidth = 2.5].  The constructor returns normally, though
    2.5 is a finite number that is not a whole number, let alone an even
    one.  On whole numbers the two tests pass exactly for the even numbers
    greater than 1. *)
Theorem constructor_accepts_fractional_maxCanvasWidth (env : Env)
  (element : nat) :
  fst (constructor env (fractionalUser element) (blank env)) = Return tt
  /\ isFinite (of_Q (5 # 2)) = true
  /\ (forall z : Z, of_Q (5 # 2) <> of_Z z)
  /\ (forall z : Z,
        maxCanvasWidthError (of_Z z) = None
        <-> (1 < z)%Z /\ Z.even z = true).
Proof.
  split; [|split; [reflexivity|split]].
  - rewrite constructor_eq. unfold constructorResult, fractionalUser.
    cbn [resolvedContainer u_container assign pick u_maxCanvasWidth
         maxCanvasWidth u_renderer renderer defaultParams].
    assert (E : maxCanvasWidthError (of_Q (5 # 2)) = None)
      by (vm_compute; reflexivity).
    rewrite E. reflexivity.
  - intros z H. unfold of_Z, of_Q in H.
    assert (H' : Q2Qc (5 # 2) = Q2Qc (inject_Z z)) by congruence.
    apply Q2Qc_eq_iff in H'. unfold Qeq in H'. simpl in H'. lia.
  - apply maxCanvasWidthError_integer.
Qed.

(** ** The properties at the example of the README *)

(** C1 at the example instance, which draws without the cache. *)
Lemma drawBuffer_draw_calls_witness :
  drawer demoInstance = Some (mkDrawer (of_Z 600) None)
  /\ fst (drawBuffer demoInstance) = Return tt.
Proof.
  split; [reflexivity|].
  destruct (@drawBuffer_draw_calls demoInstance (mkDrawer (of_Z 600) None)
              eq_refl) as [H _].
  rewrite (H eq_refl). reflexivity.
Defined.

(** C2 at the example instance: before any [load] the width is that of the
    parent. *)
Lemma drawBuffer_extent_witness :
  drawer demoInstance = Some (mkDrawer (of_Z 600) None)
  /\ drawExtent demoInstance (of_Z 600) = (of_Z 600, zero, of_Z 600).
Proof.
  split; [reflexivity|].
  destruct (@drawBuffer_extent demoInstance (mkDrawer (of_Z 600) None)
              eq_refl) as [_ [_ [H _]]].
  exact H.
Defined.

(** C3 at width 20 and the range [0, 20) of scenarios A and B. *)
Lemma addRange_twice_witness :
  fst (PeakCache.addRangeToPeakCache PeakCache.create (of_Z 20) (of_Z 0)
         (of_Z 20)) = [(of_Z 0, of_Z 20)]
  /\ fst (PeakCache.addRangeToPeakCache
            (snd (PeakCache.addRangeToPeakCache PeakCache.create (of_Z 20)
                    (of_Z 0) (of_Z 20)))
            (of_Z 20) (of_Z 0) (of_Z 20)) = [].
Proof.
  destruct (@addRange_twice PeakCache.create (of_Z 20) (of_Z 0) (of_Z 20)
              eq_refl (or_introl eq_refl)) as [H _].
  apply H. reflexivity.
Defined.


(** C7 at [renderer: 1]. *)
Lemma constructor_renderer_check_witness :
  typeof (renderer (assign (defaultParams demoEnv) badRendererUser))
  <> "function"%string
  /\ fst (constructor demoEnv badRendererUser (blank demoEnv))
     = Throw (Error "Renderer parameter is invalid").
Proof.
  assert (Ht : typeof (renderer (assign (defaultParams demoEnv)
                                   badRendererUser)) <> "function"%string)
    by discriminate.
  split; [exact Ht|].
  destruct (@constructor_renderer_check demoEnv badRendererUser) as [H _].
  destruct (H Ht) as [_ [H1 _]].
  apply H1; [discriminate|reflexivity].
Defined.

(** C8 at [seekTo(2)]. *)
Lemma seekTo_validates_first_witness :
  drawer demoInstance = Some (mkDrawer (of_Z 600) None)
  /\ seekTo (VNum (of_Z 2)) demoInstance = (Throw seekToError, demoInstance).
Proof.
  split; [reflexivity|].
  destruct (@seekTo_validates_first (VNum (of_Z 2)) demoInstance
              (mkDrawer (of_Z 600) None) eq_refl) as [_ [H _]].
  apply H. apply seekToCheck_true. reflexivity.
Defined.

(** C9 at [skip(0.5)] before any [load]. *)
Lemma skip_seeks_within_unit_interval_witness :
  notInfinite (duration demoInstance)
  /\ notInfinite (curPosition demoInstance)
  /\ inUnitInterval (VNum (skip_progress demoInstance (Some (of_Q (1 # 2))))).
Proof.
  assert (H1 : notInfinite (duration demoInstance))
    by (split; discriminate).
  assert (H2 : notInfinite (curPosition demoInstance))
    by (split; discriminate).
  split; [exact H1|]. split; [exact H2|].
  destruct (@skip_seeks_within_unit_interval demoInstance
              (Some (of_Q (1 # 2))) H1 H2) as [H _].
  exact H.
Defined.

(** C10 in the empty state. *)
Lemma getPlayedPercents_quotient_witness :
  curPosition (snd (empty demoInstance)) = Some zero
  /\ duration (snd (empty demoInstance)) = Some zero
  /\ fst (getPlayedPercents (snd (empty demoInstance))) = Return zero.
Proof.
  split; [reflexivity|]. split; [reflexivity|].
  destruct (@getPlayedPercents_quotient (snd (empty demoInstance)))
    as [_ [_ [_ H]]].
  rewrite (H eq_refl eq_refl). reflexivity.
Defined.

(** ** Further properties of the facade *)

Lemma bind_run (A B : Type) (m : M A) (k : A -> M B) (w w1 : WaveSurfer)
  (a : A) (H : m w = (Return a, w1)) :
  bind m k w = k a w1.
Proof. unfold bind. now rewrite H. Qed.

Lemma bind_throw (A B : Type) (m : M A) (k : A -> M B) (w w1 : WaveSurfer)
  (e : exn) (H : m w = (Throw e, w1)) :
  bind m k w = (Throw e, w1).
Proof. unfold bind. now rewrite H. Qed.

Lemma resolvedContainer_none (env : Env) (user : UserParams) :
  resolvedContainer env user = None
  <-> match u_container user with
      | Some (ContainerSelector s) => querySelector env s = None
      | Some (ContainerElement _) => False
      | _ => True
      end.
Proof.
  unfold resolvedContainer.
  destruct (u_container user) as [[s|el|]|]; try tauto.
  split; [discriminate|contradiction].
Qed.

Lemma maxCanvasWidthError_messages (n : number) (e : exn) :
  maxCanvasWidthError n = Some e ->
  e = Error "maxCanvasWidth must be greater than 1"
  \/ e = Error "maxCanvasWidth must be an even number".
Proof.
  unfold maxCanvasWidthError.
  destruct (leb n one); [intros H; injection H as <-; now left|].
  destruct (eqb _ one); [intros H; injection H as <-; now right|discriminate].
Qed.

(** X1. The constructor checks in this order: the container, then
    [maxCanvasWidth], then the renderer.  It raises
    ['Container element not found'] exactly when no container is given, the
    container is [null], or it is a selector that [document.querySelector]
    does not find (an element passed as such is always accepted).  It
    returns exactly when all three checks pass, and then the instance has
    the defaults overridden by the caller's parameters, the resolved
    container, the renderer as its drawer class, no drawer and no peak cache
    yet, [isReady] and [isDestroyed] false, and nothing logged but the style
    calls. *)
Theorem constructor_checks_in_order (env : Env) (user : UserParams) :
  let p := assign (defaultParams env) user in
  let result := constructor env user (blank env) in
  (fst result = Throw (Error "Container element not found")
   <-> match u_container user with
       | Some (ContainerSelector s) => querySelector env s = None
       | Some (ContainerElement _) => False
       | _ => True
       end)
  /\ (fst result = Return tt
      <-> resolvedContainer env user <> None
          /\ maxCanvasWidthError (maxCanvasWidth p) = None
          /\ typeof (renderer p) = "function"%string)
  /\ (fst result = Return tt ->
      params (snd result) = p
      /\ container (snd result) = resolvedContainer env user
      /\ drawer (snd result) = None
      /\ peakCache (snd result) = None
      /\ DrawerClass (snd result) = Some (renderer p)
      /\ isReady (snd result) = false
      /\ isDestroyed (snd result) = false
      /\ log (snd result) = constructorStyles p).
Proof.
  intros p result. subst result. rewrite constructor_eq.
  rewrite <- resolvedContainer_none.
  unfold constructorResult. fold p.
  destruct (resolvedContainer env user) as [c|] eqn:Hc.
  - destruct (maxCanvasWidthError (maxCanvasWidth p)) as [e|] eqn:He.
    + cbn [fst snd]. split; [|split].
      * split; [|discriminate]. intros F. injection F as ->.
        destruct (@maxCanvasWidthError_messages _ _ He); discriminate.
      * split; [discriminate|]. intros [_ [F _]]. discriminate.
      * discriminate.
    + destruct (String.eqb (typeof (renderer p)) "function") eqn:Hr.
      * apply String.eqb_eq in Hr. cbn [fst snd]. split; [|split].
        -- split; discriminate.
        -- split; [intros _|reflexivity].
           split; [discriminate|]. split; [reflexivity|exact Hr].
        -- intros _. repeat split.
      * apply String.eqb_neq in Hr. cbn [fst snd]. split; [|split].
        -- split; discriminate.
        -- split; [discriminate|]. intros [_ [_ F]]. contradiction.
        -- discriminate.
  - cbn [fst snd]. split; [|split].
    + split; reflexivity.
    + split; [discriminate|]. intros [F _]. now contradiction F.
    + discriminate.
Qed.

Lemma maxCanvasWidthError_of_Z (z : Z) :
  maxCanvasWidthError (of_Z z)
  = if (z <=? 1)%Z then Some (Error "maxCanvasWidth must be greater than 1")
    else if (z mod 2 =? 1)%Z
         then Some (Error "maxCanvasWidth must be an even number")
         else None.
Proof.
  unfold maxCanvasWidthError, one. rewrite leb_of_Z.
  destruct (z <=? 1)%Z eqn:E; [reflexivity|].
  apply Z.leb_gt in E. rewrite rem_of_Z_2 by lia. now rewrite eqb_of_Z.
Qed.

(** X2. With a container and a whole number [z] as [maxCanvasWidth]: for
    [z <= 1] the constructor raises ['maxCanvasWidth must be greater than
    1'] (also for odd ones such as 1 and -3); for an odd [z > 1] it raises
    ['maxCanvasWidth must be an even number']; for an even [z > 1] neither,
    and only the renderer check is left. *)
Theorem constructor_maxCanvasWidth_messages (env : Env) (user : UserParams)
  (z : Z) :
  resolvedContainer env user <> None ->
  u_maxCanvasWidth user = Some (of_Z z) ->
  let result := fst (constructor env user (blank env)) in
  ((z <= 1)%Z ->
     result = Throw (Error "maxCanvasWidth must be greater than 1"))
  /\ ((1 < z)%Z -> Z.odd z = true ->
      result = Throw (Error "maxCanvasWidth must be an even number"))
  /\ ((1 < z)%Z -> Z.even z = true ->
      result = Return tt
      \/ result = Throw (Error "Renderer parameter is invalid")).
Proof.
  intros Hc Hz result. subst result. rewrite constructor_eq.
  unfold constructorResult.
  destruct (resolvedContainer env user) as [c|]; [|congruence].
  assert (Hp : maxCanvasWidth (assign (defaultParams env) user) = of_Z z).
  { unfold assign. cbn [maxCanvasWidth]. now rewrite Hz. }
  rewrite Hp, maxCanvasWidthError_of_Z.
  split; [|split].
  - intros H. apply Z.leb_le in H. now rewrite H.
  - intros H Ho. apply Z.leb_gt in H. rewrite H.
    rewrite Zodd_mod in Ho. apply Z.eqb_eq in Ho.
    apply Z.eqb_eq in Ho. now rewrite Ho.
  - intros H He. apply Z.leb_gt in H. rewrite H.
    rewrite Zeven_mod in He. apply Z.eqb_eq in He.
    replace (z mod 2 =? 1)%Z with false
      by (symmetry; apply Z.eqb_neq; lia).
    destruct (String.eqb _ "function"); [now left|now right].
Qed.





Lemma initialised_drawer (w : WaveSurfer) :
  initialised w -> exists d, drawer w = Some d.
Proof.
  intros [H _]. destruct (drawer w) as [d|]; [now exists d|congruence].
Qed.

Lemma drawBuffer_on_initialised (w : WaveSurfer) :
  initialised w ->
  exists w' front,
    drawBuffer w = (Return tt, w')
    /\ onlyLogAndCache w w'
    /\ initialised w'
    /\ (partialRender (params w) = false -> peakCache w' = peakCache w)
    /\ log w' = log w ++ front
                ++ [FireEvent "redraw"
                      [APeaks (peaks_ w);
                       ANum (extentWidth
                               (drawExtent w
                                  (getWidth (match drawer w with
                                             | Some d => d
                                             | None => mkDrawer NaN None
                                             end))))]].
Proof.
  intros Hi. destruct (initialised_drawer Hi) as [d Hd].
  destruct Hi as [_ Hc]. rewrite Hd.
  destruct (partialRender (params w)) eqn:Hp.
  - destruct (peakCache w) as [c|] eqn:Hpc; [|now exfalso; apply Hc].
    rewrite (@drawBuffer_partial w d c Hd Hp Hpc).
    set (x := drawExtent w (getWidth d)).
    set (r := PeakCache.addRangeToPeakCache c _ _ _).
    eexists.
    exists (CacheAddRange (extentWidth x) (extentStart x) (extentEnd x)
            :: map (drawEvent (peaks_ w) (extentWidth x)) (fst r)).
    split; [reflexivity|]. clearbody r x.
    destruct w as [p0 c0 d0 pc0 dc0 id0 ir0 pk0 du0 cp0 pm0 l0].
    cbn [params drawer peakCache] in *. subst.
    unfold onlyLogAndCache, initialised, redrawEvent. run.
    repeat split; try discriminate.
  - rewrite (@drawBuffer_full w d Hd Hp).
    set (x := drawExtent w (getWidth d)).
    eexists.
    exists [DrawerDrawPeaks (peaks_ w) (extentWidth x)
              (Some (extentStart x)) (Some (extentEnd x))].
    split; [reflexivity|]. clearbody x.
    destruct w as [p0 c0 d0 pc0 dc0 id0 ir0 pk0 du0 cp0 pm0 l0].
    cbn [params drawer peakCache] in *. subst.
    unfold onlyLogAndCache, initialised, redrawEvent. run.
    repeat split; try discriminate.
    intros F. change (partialRender p0 = true) in F. congruence.
Qed.


Lemma drawer_recenter_run (p : number) (w : WaveSurfer) (d : Drawer) :
  drawer w = Some d ->
  drawer_recenter p w
  = (Return tt, set_log (log w ++ [DrawerRecenter p]) w).
Proof.
  intros H. destruct_ws w. cbn [drawer] in H. subst.
  unfold drawer_recenter. run. reflexivity.
Qed.

(** X4. On an initialised instance [drawBuffer] always returns; it changes
    nothing but the log and the peak cache (the cache too is untouched
    without partial rendering), keeps the instance initialised, and the
    last thing it does is fire ['redraw'] with the peaks and the width.  On
    an instance that is not initialised it raises a [TypeError] and leaves
    the instance exactly as it was. *)
Theorem drawBuffer_touches_only_log_and_cache (w : WaveSurfer) :
  (initialised w ->
     exists w' front,
       drawBuffer w = (Return tt, w')
       /\ onlyLogAndCache w w'
       /\ initialised w'
       /\ (partialRender (params w) = false -> peakCache w' = peakCache w)
       /\ log w' = log w ++ front
                   ++ [FireEvent "redraw"
                         [APeaks (peaks_ w);
                          ANum (extentWidth
                                  (drawExtent w
                                     (getWidth (match drawer w with
                                                | Some d => d
                                                | None => mkDrawer NaN None
                                                end))))]])
  /\ (~ initialised w ->
      exists msg, drawBuffer w = (Throw (TypeError msg), w)).
Proof.
  split; [apply drawBuffer_on_initialised|].
  intros Hn. destruct (drawer w) as [d|] eqn:Hd.
  - destruct (partialRender (params w)) eqn:Hp.
    + destruct (peakCache w) as [c|] eqn:Hc.
      * exfalso. apply Hn. split; congruence.
      * rewrite (@drawBuffer_no_cache w d Hd Hp Hc). now eexists.
    + exfalso. apply Hn. split; congruence.
  - rewrite (@drawBuffer_no_drawer w Hd). now eexists.
Qed.

(** X5. On an instance with its drawer, [empty()] returns with position 0,
    duration 0, [isReady] false and the drawer's progress at 0.  It keeps
    the loaded peaks, [peakMax], the peak cache and the parameters.  It
    logs, in order: the pause, the seek to 0, the progress 0, width 0, and a
    draw of an empty stub as long as the parent is wide.  Afterwards
    [getPlayedPercents()] is 0. *)
Theorem empty_resets_position_and_duration (w : WaveSurfer) (d : Drawer) :
  drawer w = Some d ->
  exists w',
    empty w = (Return tt, w')
    /\ curPosition w' = Some zero
    /\ duration w' = Some zero
    /\ isReady w' = false
    /\ drawer w' = Some (mkDrawer (getWidth d) (Some zero))
    /\ peaks_ w' = peaks_ w
    /\ peakMax w' = peakMax w
    /\ peakCache w' = peakCache w
    /\ params w' = params w
    /\ log w' = log w ++ emptyEvents d w
    /\ getPlayedPercents w' = (Return zero, w').
Proof.
  intros Hd. exists (afterEmpty d w). split; [now apply empty_run|].
  destruct_ws w. unfold afterEmpty, emptyEvents. run.
  repeat split.
Qed.

(** X6. [stop()] never raises the error of [seekTo].  On an instance with
    its drawer it returns, having logged the pause and told the drawer
    progress 0, with parameters and duration as before; the position is 0
    when the duration is a finite number, and [NaN] before the first
    [load], when the duration is still [undefined]. *)
Theorem stop_seeks_to_start (w : WaveSurfer) :
  (forall msg, fst (stop w) <> Throw (Error msg))
  /\ (forall d, drawer w = Some d ->
      exists w',
        stop w = (Return tt, w')
        /\ drawer w' = Some (mkDrawer (getWidth d) (Some zero))
        /\ params w' = params w
        /\ duration w' = duration w
        /\ In (ConsoleLog "pause() called") (log w')
        /\ ((exists x, duration w = Some (Fin x)) ->
            curPosition w' = Some zero)
        /\ (duration w = None -> curPosition w' = Some NaN)).
Proof.
  unfold stop, pause, emit. split.
  - intros msg. unfold bind at 1. unfold modify at 1.
    match goal with
    | |- context [seekTo ?v ?w1] =>
        destruct (drawer w1) as [d|] eqn:Hd;
        [rewrite (@seekTo_accepts v w1 d seekToCheck_zero Hd)
        |destruct (@seekTo_no_drawer v w1 seekToCheck_zero Hd) as [w' ->]]
    end; discriminate.
  - intros d Hd. unfold bind at 1. unfold modify at 1.
    match goal with
    | |- context [seekTo ?v ?w1] =>
        rewrite (@seekTo_accepts v w1 d seekToCheck_zero)
          by (destruct w; exact Hd)
    end.
    eexists. split; [reflexivity|].
    destruct_ws w. unfold afterSeek. run. cbn [numberOf].
    repeat split.
    + apply in_or_app. left. apply in_or_app. right. simpl. auto.
    + intros [x ->]. cbn [toNumber mul zero of_Z of_Q]. f_equal.
      unfold zero, of_Z, of_Q. f_equal. apply Qcmult_0_l.
    + intros ->. reflexivity.
Qed.

(** X7. [seekTo] has no [finally]: on an instance without a drawer (built
    with [new] but not initialised) a valid [progress] fires
    ['interaction'], then fails with a [TypeError] on the drawer, and leaves
    [params.scrollParent] overridden to [false] and the position already
    set to [progress * duration]. *)
Theorem seekTo_without_drawer_leaves_override (progress : value)
  (w : WaveSurfer) :
  inUnitInterval progress ->
  drawer w = None ->
  exists w',
    seekTo progress w = (Throw (TypeError "this.drawer is null"), w')
    /\ scrollParent (params w') = false
    /\ curPosition w'
       = Some (mul (numberOf progress) (toNumber (duration w)))
    /\ log w' = log w ++ [FireEvent "interaction"
                            [AClosure "() => this.seekTo(progress)"]].
Proof.
  intros Hin Hd. apply seekToCheck_false in Hin.
  unfold seekTo. fold (seekToCheck progress). rewrite Hin.
  destruct_ws w. cbn [drawer] in Hd. subst.
  unfold getDuration. run. eexists. repeat split.
Qed.

Lemma geb_finite (s d : Qc) : geb (Fin s) (Fin d) = Qc_leb d s.
Proof. reflexivity. Qed.

Lemma seekToCheck_one : seekToCheck (VNum one) = false.
Proof. reflexivity. Qed.

Lemma seekToCheck_fraction (s d : Qc) :
  (Q2Qc 0 < d)%Qc -> (s < d)%Qc ->
  seekToCheck (VNum (Fin (s / d)%Qc)) = negb (Qc_leb (Q2Qc 0) s).
Proof.
  intros Hd Hs.
  assert (Hd0 : d <> Q2Qc 0).
  { intros ->. now apply (Qclt_not_eq _ _ Hd). }
  destruct (Qc_leb (Q2Qc 0) s) eqn:E; cbn [negb].
  - apply Qc_leb_le in E. apply seekToCheck_false.
    exists (s / d)%Qc. split; [reflexivity|].
    apply unit_fraction; [exact Hd0|].
    destruct (Qcle_lt_or_eq _ _ E) as [L | <-]; [|now left].
    right. split; [exact L|now apply Qclt_le_weak].
  - apply seekToCheck_true. intros [q [Hq [H0 _]]].
    injection Hq as <-.
    assert (L : (Q2Qc 0 <= s)%Qc).
    { rewrite <- (@Qcdiv_mult_cancel s d Hd0).
      rewrite <- (Qcmult_0_l d).
      apply Qcmult_le_compat_r; [exact H0|now apply Qclt_le_weak]. }
    apply Qc_leb_le in L. congruence.
Qed.

Lemma ltb_div_negative (seconds : number) (d : Qc) :
  (Q2Qc 0 < d)%Qc ->
  ltb (div seconds (Fin d)) zero = true ->
  geb seconds (Fin d) = false.
Proof.
  intros Hd H.
  assert (Hd0 : d <> Q2Qc 0).
  { intros ->. now apply (Qclt_not_eq _ _ Hd). }
  destruct seconds as [| | |s]; try reflexivity.
  - exfalso. cbn [div] in H.
    rewrite (proj1 (Qcgt_alt d (Q2Qc 0)) Hd) in H. discriminate.
  - rewrite (@div_finite s d Hd0) in H. rewrite geb_finite.
    destruct (Qc_leb d s) eqn:E; [|reflexivity]. exfalso.
    apply Qc_leb_le in E.
    assert (L : (Q2Qc 0 <= s)%Qc).
    { apply Qclt_le_weak. eapply Qclt_le_trans; eauto. }
    assert (Hq : (Q2Qc 0 <= s / d)%Qc).
    { apply Qcmult_lt_0_le_reg_r with (z := d); [exact Hd|].
      rewrite (@Qcdiv_mult_cancel s d Hd0), Qcmult_0_l. exact L. }
    cbn [ltb zero of_Z of_Q] in H. unfold zero, of_Z, of_Q in H.
    cbn [ltb] in H. apply Qc_ltb_lt in H.
    now apply (Qclt_not_le _ _ H).
Qed.

(** X8. With a positive finite duration [d] and a drawer,
    [setCurrentTime] clamps above but not below.  For every [seconds >= d]
    (infinity included) it returns with the position exactly [d] and the
    drawer's progress 1.  For [0 <= s < d] it returns with the drawer's
    progress [s / d] and the position [(s / d) * d] as [seekTo] computes
    it, a number between 0 and [d].  When the quotient [seconds / d] is
    negative it raises the error of [seekTo] and leaves the instance as it
    was.  [setCurrentTime(NaN)] raises.  Before the first [load], when the
    duration is [undefined], [setCurrentTime] raises whatever the
    argument. *)
Theorem setCurrentTime_clamps_to_duration (w : WaveSurfer) (dr : Drawer)
  (d : Qc) :
  drawer w = Some dr ->
  duration w = Some (Fin d) ->
  (Q2Qc 0 < d)%Qc ->
  (forall seconds : number,
     geb seconds (Fin d) = true ->
     exists w',
       setCurrentTime seconds w = (Return tt, w')
       /\ curPosition w' = Some (Fin d)
       /\ drawer w' = Some (mkDrawer (getWidth dr) (Some one)))
  /\ (forall s : Qc,
        (Q2Qc 0 <= s)%Qc -> (s < d)%Qc ->
        exists (w' : WaveSurfer) (c : Qc),
          setCurrentTime (Fin s) w = (Return tt, w')
          /\ curPosition w' = Some (mul (div (Fin s) (Fin d)) (Fin d))
          /\ curPosition w' = Some (Fin c)
          /\ (Q2Qc 0 <= c)%Qc /\ (c <= d)%Qc
          /\ drawer w'
             = Some (mkDrawer (getWidth dr) (Some (div (Fin s) (Fin d)))))
  /\ (forall seconds : number,
        ltb (div seconds (Fin d)) zero = true ->
        setCurrentTime seconds w = (Throw seekToError, w))
  /\ setCurrentTime NaN w = (Throw seekToError, w)
  /\ (forall (w0 : WaveSurfer) (seconds : number),
        duration w0 = None ->
        setCurrentTime seconds w0 = (Throw seekToError, w0)).
Proof.
  intros Hdr Hd Hpos.
  assert (Hd0 : d <> Q2Qc 0).
  { intros ->. now apply (Qclt_not_eq _ _ Hpos). }
  split; [|split; [|split; [|split]]].
  - intros seconds Hs. unfold setCurrentTime. unfold bind, get. rewrite Hd.
    cbn [toNumber]. rewrite Hs.
    rewrite (@seekTo_accepts (VNum one) w dr seekToCheck_one Hdr).
    eexists. split; [reflexivity|].
    destruct_ws w. cbn [duration] in Hd. subst.
    unfold afterSeek. run. cbn [numberOf toNumber mul one of_Z of_Q].
    split; [|reflexivity]. do 2 f_equal. apply Qcmult_1_l.
  - intros s Hs Hsd. unfold setCurrentTime. unfold bind, get. rewrite Hd.
    cbn [toNumber]. rewrite geb_finite.
    assert (E : Qc_leb d s = false).
    { destruct (Qc_leb d s) eqn:E; [|reflexivity].
      apply Qc_leb_le in E. exfalso. now apply (Qclt_not_le _ _ Hsd). }
    rewrite E, (@div_finite s d Hd0).
    assert (Hc : seekToCheck (VNum (Fin (s / d)%Qc)) = false).
    { rewrite (@seekToCheck_fraction s d Hpos Hsd).
      apply Qc_leb_le in Hs. now rewrite Hs. }
    rewrite (@seekTo_accepts _ w dr Hc Hdr).
    apply seekToCheck_false in Hc. destruct Hc as [q [Hq [Hq0 Hq1]]].
    injection Hq as <-.
    exists (afterSeek (numberOf (VNum (Fin (s / d)%Qc))) dr w), (s / d * d)%Qc.
    split; [reflexivity|].
    destruct_ws w. cbn [duration] in Hd. subst.
    unfold afterSeek. run. cbn [numberOf toNumber mul].
    repeat split; now apply scaled_fraction_within.
  - intros seconds Hneg. unfold setCurrentTime. unfold bind, get. rewrite Hd.
    cbn [toNumber]. rewrite (@ltb_div_negative seconds d Hpos Hneg).
    apply seekTo_rejects. unfold seekToCheck. cbn [typeof numberOf].
    rewrite Hneg. cbn. now rewrite orb_true_r.
  - unfold setCurrentTime. unfold bind, get. rewrite Hd.
    cbn [toNumber geb leb div]. now apply seekTo_rejects.
  - intros w0 seconds H0. unfold setCurrentTime. unfold bind, get.
    rewrite H0. cbn [toNumber].
    assert (E1 : geb seconds NaN = false) by reflexivity.
    assert (E2 : div seconds NaN = NaN) by now destruct seconds.
    rewrite E1, E2. now apply seekTo_rejects.
Qed.

Lemma truthy_neg (x : number) : truthy (neg x) = truthy x.
Proof.
  destruct x as [| | |q]; try reflexivity. simpl. f_equal.
  destruct (Qc_eqb q (Q2Qc 0)) eqn:E.
  - apply Qc_eqb_eq in E. subst. reflexivity.
  - destruct (Qc_eqb (- q) (Q2Qc 0)) eqn:E'; [|reflexivity].
    apply Qc_eqb_eq in E'.
    assert (q = Q2Qc 0).
    { rewrite <- (Qcopp_involutive q), E'. reflexivity. }
    subst. now rewrite Qc_eqb_refl in E.
Qed.

Lemma skip_never_Error (w : WaveSurfer) (offset : option number)
  (msg : string) :
  notInfinite (duration w) -> notInfinite (curPosition w) ->
  fst (skip offset w) <> Throw (Error msg).
Proof.
  intros Hd Hc.
  destruct (@skip_progress_unit w offset Hd Hc)
    as [y [d [_ [_ [_ [Hprog [H0 H1]]]]]]].
  assert (Hchk : seekToCheck (VNum (skip_progress w offset)) = false).
  { apply seekToCheck_false. exists (y / d)%Qc. rewrite Hprog. auto. }
  destruct (drawer w) as [dr|] eqn:Hdr.
  - rewrite (@skip_run w offset dr Hchk Hdr). discriminate.
  - unfold skip, seekAndCenter. unfold bind at 1. unfold get at 1.
    unfold bind at 1.
    destruct (@seekTo_no_drawer _ w Hchk Hdr) as [w' ->]. discriminate.
Qed.

(** X9. [skipForward(seconds)] is [skip(seconds)] when [seconds] is truthy
    and [skip(skipLength)] otherwise; [skipBackward(seconds)] is
    [skip(-seconds)] or [skip(-skipLength)] likewise.  So [skipForward(0)]
    skips by [skipLength], not by 0.  When neither duration nor position is
    an infinity, neither raises the error of [seekTo]. *)
Theorem skipForward_and_skipBackward_default_to_skipLength (w : WaveSurfer)
  (seconds : option number) :
  skipForward seconds w
  = skip (Some (if truthy_opt seconds then toNumber seconds
                else skipLength (params w))) w
  /\ skipBackward seconds w
     = skip (Some (if truthy_opt seconds then neg (toNumber seconds)
                   else neg (skipLength (params w)))) w
  /\ skipForward (Some zero) w = skip (Some (skipLength (params w))) w
  /\ (notInfinite (duration w) -> notInfinite (curPosition w) ->
      forall msg,
        fst (skipForward seconds w) <> Throw (Error msg)
        /\ fst (skipBackward seconds w) <> Throw (Error msg)).
Proof.
  assert (HF : skipForward seconds w
               = skip (Some (if truthy_opt seconds then toNumber seconds
                             else skipLength (params w))) w).
  { unfold skipForward. unfold bind at 1. unfold get at 1.
    destruct seconds as [n|]; cbn [or_num truthy_opt toNumber];
      [destruct (truthy n)|]; reflexivity. }
  assert (HB : skipBackward seconds w
               = skip (Some (if truthy_opt seconds then neg (toNumber seconds)
                             else neg (skipLength (params w)))) w).
  { unfold skipBackward. unfold bind at 1. unfold get at 1.
    unfold or_else. rewrite truthy_neg.
    destruct seconds as [n|]; cbn [truthy_opt toNumber truthy]; reflexivity. }
  split; [exact HF|]. split; [exact HB|]. split; [reflexivity|].
  intros Hd Hc msg. rewrite HF, HB. split; now apply skip_never_Error.
Qed.

Lemma negb_scrollParent_twice (p : Params) :
  set_scrollParent
    (negb (scrollParent (set_scrollParent (negb (scrollParent p)) p)))
    (set_scrollParent (negb (scrollParent p)) p) = p.
Proof. destruct p. run. now rewrite negb_involutive. Qed.

(** X10. On an initialised instance [toggleScroll()] always returns and
    negates [params.scrollParent]; called twice it leaves the parameters as
    they were, and duration, position and peaks are never changed. *)
Theorem toggleScroll_twice_restores_params (w : WaveSurfer) :
  initialised w ->
  exists w1 w2,
    toggleScroll w = (Return tt, w1)
    /\ scrollParent (params w1) = negb (scrollParent (params w))
    /\ toggleScroll w1 = (Return tt, w2)
    /\ params w2 = params w
    /\ duration w2 = duration w
    /\ curPosition w2 = curPosition w
    /\ peaks_ w2 = peaks_ w.
Proof.
  intros Hi.
  assert (Hstep : forall w0, initialised w0 ->
            exists w', toggleScroll w0 = (Return tt, w')
              /\ params w' = set_scrollParent (negb (scrollParent (params w0)))
                               (params w0)
              /\ initialised w'
              /\ duration w' = duration w0
              /\ curPosition w' = curPosition w0
              /\ peaks_ w' = peaks_ w0).
  { intros w0 H0. unfold toggleScroll. unfold bind at 1. unfold modify at 1.
    set (wt := set_params _ w0).
    assert (Ht : initialised wt).
    { destruct H0 as [Ha Hb]. subst wt. destruct_ws w0. split; assumption. }
    destruct (@drawBuffer_on_initialised wt Ht)
      as [w' [front [Hrun [Hframe [Hi' _]]]]].
    exists w'. split; [exact Hrun|].
    destruct Hframe as [Hp [_ [_ [_ [_ [_ [Hpk [Hdu [Hcp _]]]]]]]]].
    subst wt. rewrite Hp, Hpk, Hdu, Hcp.
    split; [now destruct w0|]. split; [exact Hi'|].
    destruct w0. repeat split. }
  destruct (Hstep w Hi) as [w1 [H1 [Hp1 [Hi1 [Hd1 [Hc1 Hk1]]]]]].
  destruct (Hstep w1 Hi1) as [w2 [H2 [Hp2 [_ [Hd2 [Hc2 Hk2]]]]]].
  exists w1, w2. split; [exact H1|]. split.
  - rewrite Hp1. now destruct (params w).
  - split; [exact H2|]. split; [|repeat split; congruence].
    rewrite Hp2, Hp1. apply negb_scrollParent_twice.
Qed.


Lemma beforeDraw_initialised (p : option peaks) (d pmax : option number)
  (dr : Drawer) (w : WaveSurfer) :
  initialised w -> drawer w = Some dr ->
  initialised (beforeDraw p d pmax dr w)
  /\ params (beforeDraw p d pmax dr w) = params w
  /\ peakCache (beforeDraw p d pmax dr w) = peakCache w
  /\ curPosition (beforeDraw p d pmax dr w) = Some zero
  /\ duration (beforeDraw p d pmax dr w) = d
  /\ peaks_ (beforeDraw p d pmax dr w) = p
  /\ drawer (beforeDraw p d pmax dr w)
     = Some (mkDrawer (getWidth dr) (Some zero))
  /\ log (beforeDraw p d pmax dr w) = log w ++ emptyEvents dr w.
Proof.
  intros [Ha Hb] Hd. destruct_ws w. unfold beforeDraw, afterEmpty, emptyEvents.
  unfold initialised. run. repeat split; try assumption; discriminate.
Qed.

Lemma zero_div (n : number) : or_else (div zero n) zero = zero.
Proof.
  destruct n as [| | |x]; try reflexivity.
  unfold zero, of_Z, of_Q, or_else. cbn [div].
  change (Q2Qc (inject_Z 0) ?= Q2Qc 0)%Qc with Eq.
  destruct (x ?= Q2Qc 0)%Qc; try reflexivity;
    unfold Qcdiv; rewrite Qcmult_0_l; reflexivity.
Qed.

Lemma played_percents_at_start (w : WaveSurfer) :
  curPosition w = Some zero -> getPlayedPercents w = (Return zero, w).
Proof.
  intros H.
  assert (E : getPlayedPercents w
              = (Return (or_else (div (toNumber (curPosition w))
                                    (toNumber (duration w))) zero), w))
    by reflexivity.
  rewrite E, H. cbn [toNumber]. now rewrite zero_div.
Qed.

(** X12. A [load] that passes its checks on an initialised instance
    rewinds: the position is 0 and the drawer's progress is 0 whatever they
    were, the parameters are unchanged, the instance stays initialised, and
    [getPlayedPercents()] is 0. *)
Theorem load_rewinds (p : option peaks) (d pmax : option number)
  (w : WaveSurfer) :
  loadRejects p d = false ->
  initialised w ->
  exists w',
    load p d pmax w = (Return tt, w')
    /\ curPosition w' = Some zero
    /\ (exists dr, drawer w = Some dr
                   /\ drawer w' = Some (mkDrawer (getWidth dr) (Some zero)))
    /\ params w' = params w
    /\ initialised w'
    /\ getPlayedPercents w' = (Return zero, w').
Proof.
  intros Hr Hi. destruct (initialised_drawer Hi) as [dr Hdr].
  rewrite (@load_steps p d pmax w dr Hr Hdr).
  destruct (@beforeDraw_initialised p d pmax dr w Hi Hdr)
    as [Hi2 [Hp2 [_ [Hc2 [_ [_ [Hd2 _]]]]]]].
  destruct (@drawBuffer_on_initialised _ Hi2)
    as [w3 [front [Hrun [Hframe [Hi3 _]]]]].
  rewrite Hrun.
  destruct Hframe as [Hp [_ [Hdw [_ [_ [_ [_ [_ [Hcp _]]]]]]]]].
  rewrite Hp2 in Hp. rewrite Hc2 in Hcp. rewrite Hd2 in Hdw.
  destruct Hi3 as [Hi3a Hi3b].
  eexists. split; [reflexivity|].
  destruct w3 as [p3 f1 f2 f3 f4 f5 f6 f7 f8 f9 f10 l3]. unfold initialised.
  cbn [params curPosition drawer peakCache] in *. subst.
  cbn [set_log set_isReady params curPosition drawer peakCache].
  repeat split; try assumption; try discriminate.
  - exists dr. split; [exact Hdr|reflexivity].
  - now apply played_percents_at_start.
Qed.

Lemma quotient_of_product_within (q x : Qc) :
  x <> Q2Qc 0 -> (Q2Qc 0 <= q)%Qc -> (q <= Q2Qc 1)%Qc ->
  (Q2Qc 0 <= q * x / x)%Qc /\ (q * x / x <= Q2Qc 1)%Qc.
Proof. intros Hx H0 H1. now rewrite Qcdiv_mult_l. Qed.

(** X14. After [seekTo(q)] on an instance with a drawer, for a finite [q]
    in [0, 1], the drawer holds [q] itself.  When the duration is a finite
    number [x] other than 0, the position is the product [q * x] and
    [getPlayedPercents()] recomputes a fraction from it, which lies in
    [0, 1]; when the duration is falsy, [getPlayedPercents()] is 0 whatever
    [q] was. *)
Theorem seekTo_then_getPlayedPercents (q x : Qc) (w : WaveSurfer)
  (dr : Drawer) :
  drawer w = Some dr ->
  inUnitInterval (VNum (Fin q)) ->
  exists w',
    seekTo (VNum (Fin q)) w = (Return tt, w')
    /\ drawer w' = Some (mkDrawer (getWidth dr) (Some (Fin q)))
    /\ (duration w = Some (Fin x) -> x <> Q2Qc 0 ->
        curPosition w' = Some (mul (Fin q) (Fin x))
        /\ exists r : Qc,
             getPlayedPercents w' = (Return (Fin r), w')
             /\ (Q2Qc 0 <= r)%Qc /\ (r <= Q2Qc 1)%Qc)
    /\ (truthy_opt (duration w) = false ->
        getPlayedPercents w' = (Return zero, w')).
Proof.
  intros Hd Hin. pose proof Hin as [q0 [Hq [Hq0 Hq1]]]. injection Hq as <-.
  apply seekToCheck_false in Hin.
  rewrite (@seekTo_accepts _ w dr Hin Hd). eexists. split; [reflexivity|].
  split; [destruct w; reflexivity|]. split.
  - intros Hx Hx0. destruct_ws w. cbn [duration] in Hx. subst.
    unfold afterSeek, getPlayedPercents, getCurrentTime. run.
    cbn [numberOf toNumber mul]. split; [reflexivity|].
    rewrite (@div_finite (q * x)%Qc x Hx0).
    destruct (@quotient_of_product_within q x Hx0 Hq0 Hq1) as [L0 L1].
    unfold or_else. cbn [truthy].
    destruct (Qc_eqb (q * x / x) (Q2Qc 0)) eqn:E; cbn [negb].
    + exists (Q2Qc 0). split; [reflexivity|].
      split; [apply Qcle_refl|now apply Qc_leb_le].
    + exists (q * x / x)%Qc. auto.
  - intros Ht. destruct_ws w. cbn [duration] in Ht.
    unfold afterSeek, getPlayedPercents, getCurrentTime. run.
    cbn [numberOf]. 
    destruct wdu as [[| | |y]|]; cbn [truthy_opt truthy] in Ht;
      try discriminate; try reflexivity.
    apply negb_false_iff in Ht. apply Qc_eqb_eq in Ht. subst y.
    cbn [toNumber mul]. rewrite Qcmult_0_r. reflexivity.
Qed.

Lemma drawCalls_app (l l' : list event) :
  drawCalls (l ++ l') = drawCalls l ++ drawCalls l'.
Proof. apply filter_app. Qed.

(** X13. With partial rendering, [fillParent] on and [scrollParent] off,
    the width is that of the parent at every [load].  With the peak cache
    as section 4.1 of the specification describes it, and nothing painted
    for that width before: the first [load] draws its peaks over
    [0, parentWidth); a second [load] finds the range painted, and the only
    [drawPeaks] call it makes is the empty stub of [empty()]: the new peaks
    are not drawn. *)
Theorem second_load_at_same_width_draws_nothing_new
  (p1 p2 : option peaks) (d1 d2 m1 m2 : option number) (w : WaveSurfer)
  (dr : Drawer) (c : PeakCache.t) (pw : Qc) :
  loadRejects p1 d1 = false ->
  loadRejects p2 d2 = false ->
  drawer w = Some dr ->
  getWidth dr = Fin pw ->
  (Q2Qc 0 < pw)%Qc ->
  partialRender (params w) = true ->
  fillParent (params w) = true ->
  scrollParent (params w) = false ->
  peakCache w = Some c ->
  PeakCache.painted c = [] \/ PeakCache.widthDiffers c (Fin pw) = true ->
  let stub := DrawerDrawPeaks (Some (PeakStub (Fin pw))) zero None None in
  exists w1 w2,
    load p1 d1 m1 w = (Return tt, w1)
    /\ load p2 d2 m2 w1 = (Return tt, w2)
    /\ drawCalls (log w1)
       = drawCalls (log w)
         ++ [stub; DrawerDrawPeaks p1 (Fin pw) (Some zero) (Some (Fin pw))]
    /\ drawCalls (log w2) = drawCalls (log w1) ++ [stub].
Proof.
  intros Hr1 Hr2 Hdr Hpw Hpos Hp Hf Hs Hc Hcov stub.
  assert (Hlt : ltb zero (Fin pw) = true) by now apply Qc_ltb_lt.
  destruct (@load_partial_run p1 d1 m1 w dr c (Fin pw) Hr1 Hdr Hpw Hp Hf Hs Hc)
    as [w1 [H1 [Hd1 [Hp1 [Hc1 Hl1]]]]].
  rewrite (@addRange_unpainted c (Fin pw) zero (Fin pw) Hcov Hlt) in Hc1, Hl1.
  cbn [fst snd map] in Hc1, Hl1.
  assert (Hp1' : partialRender (params w1) = true) by congruence.
  assert (Hf1 : fillParent (params w1) = true) by congruence.
  assert (Hs1 : scrollParent (params w1) = false) by congruence.
  destruct (@load_partial_run p2 d2 m2 w1 _ _ (Fin pw) Hr2 Hd1 eq_refl
              Hp1' Hf1 Hs1 Hc1)
    as [w2 [H2 [_ [_ [_ Hl2]]]]].
  rewrite (@addRange_painted (Fin pw) zero (Fin pw) eq_refl Hlt) in Hl2.
  cbn [fst snd map] in Hl2.
  exists w1, w2. split; [exact H1|]. split; [exact H2|]. split.
  - rewrite Hl1, !drawCalls_app. f_equal.
    unfold emptyEvents, drawEvent. rewrite Hpw. reflexivity.
  - rewrite Hl2, !drawCalls_app. reflexivity.
Qed.

(** X15. [seekAndCenter(progress)] on an instance with a drawer: when
    [progress] is not a finite number in [0, 1] it raises the error of
    [seekTo], the instance is exactly as before and the drawer is not
    recentred; otherwise it returns and has logged ['interaction'], the
    drawer's progress, ['seek'] and then the recentring, all with the same
    fraction. *)
Theorem seekAndCenter_recentres_after_the_seek (progress : number)
  (w : WaveSurfer) (d : Drawer) :
  drawer w = Some d ->
  (~ inUnitInterval (VNum progress) ->
     seekAndCenter progress w = (Throw seekToError, w))
  /\ (inUnitInterval (VNum progress) ->
      exists w',
        seekAndCenter progress w = (Return tt, w')
        /\ log w' = log w
                    ++ [FireEvent "interaction"
                          [AClosure "() => this.seekTo(progress)"];
                        DrawerProgress progress false;
                        FireEvent "seek" [ANum progress];
                        DrawerRecenter progress]
        /\ params w' = params w
        /\ duration w' = duration w).
Proof.
  intros Hd. unfold seekAndCenter. split.
  - intros H. apply seekToCheck_true in H.
    now rewrite (@bind_throw _ _ _ _ _ _ _ (@seekTo_rejects _ w H)).
  - intros H. apply seekToCheck_false in H.
    rewrite (@bind_run _ _ _ _ _ _ _ (@seekTo_accepts _ w d H Hd)).
    cbn [numberOf].
    rewrite (@drawer_recenter_run progress (afterSeek progress d w)
               (mkDrawer (getWidth d) (Some progress)))
      by (now destruct w).
    eexists. split; [reflexivity|].
    destruct_ws w. unfold afterSeek. run. repeat split.
    now rewrite <- app_assoc.
Qed.

Lemma afterSeek_within (q : Qc) (dr : Drawer) (w : WaveSurfer) :
  positionWithinDuration w ->
  (Q2Qc 0 <= q)%Qc -> (q <= Q2Qc 1)%Qc ->
  positionWithinDuration (afterSeek (Fin q) dr w).
Proof.
  intros [c [d [Hc [Hd [Hpos _]]]]] H0 H1.
  exists (q * d)%Qc, d.
  assert (Hdu : duration (afterSeek (Fin q) dr w) = duration w)
    by now destruct w.
  assert (Hcp : curPosition (afterSeek (Fin q) dr w)
                = Some (mul (Fin q) (toNumber (duration w))))
    by now destruct w.
  rewrite Hdu, Hcp, Hd. cbn [toNumber mul].
  repeat split; try assumption.
  - rewrite <- (Qcmult_0_l d). apply Qcmult_le_compat_r; [exact H0|].
    now apply Qclt_le_weak.
  - rewrite <- (Qcmult_1_l d) at 2. apply Qcmult_le_compat_r; [exact H1|].
    now apply Qclt_le_weak.
Qed.

Lemma seekTo_within (v : value) (w : WaveSurfer) (dr : Drawer) :
  drawer w = Some dr ->
  positionWithinDuration w ->
  positionWithinDuration (snd (seekTo v w))
  /\ drawer (snd (seekTo v w)) <> None.
Proof.
  intros Hd Hw. destruct (seekToCheck v) eqn:E.
  - rewrite (@seekTo_rejects v w E). cbn [snd]. split; [exact Hw|congruence].
  - rewrite (@seekTo_accepts v w dr E Hd). cbn [snd].
    apply seekToCheck_false in E. destruct E as [q [-> [H0 H1]]].
    cbn [numberOf]. split; [now apply afterSeek_within|].
    destruct w. discriminate.
Qed.

Lemma within_notInfinite (w : WaveSurfer) :
  positionWithinDuration w ->
  notInfinite (duration w) /\ notInfinite (curPosition w).
Proof.
  intros [c [d [-> [-> _]]]]. repeat split; discriminate.
Qed.

(** X16. Once the duration is a positive finite number and the position a
    number between 0 and the duration, they stay so under [seekTo], [skip],
    [skipForward], [skipBackward], [setCurrentTime] and [stop], with any
    argument and whether the call returns or raises. *)
Theorem position_stays_within_duration (w : WaveSurfer) (dr : Drawer) :
  drawer w = Some dr ->
  positionWithinDuration w ->
  (forall v, positionWithinDuration (snd (seekTo v w)))
  /\ (forall offset, positionWithinDuration (snd (skip offset w)))
  /\ (forall seconds, positionWithinDuration (snd (skipForward seconds w)))
  /\ (forall seconds, positionWithinDuration (snd (skipBackward seconds w)))
  /\ (forall seconds, positionWithinDuration (snd (setCurrentTime seconds w)))
  /\ positionWithinDuration (snd (stop w)).
Proof.
  intros Hd Hw.
  assert (Hseek : forall v, positionWithinDuration (snd (seekTo v w)))
    by (intros v; now apply (@seekTo_within v w dr Hd Hw)).
  assert (Hskip : forall offset, positionWithinDuration (snd (skip offset w))).
  { intros offset. destruct (within_notInfinite Hw) as [N1 N2].
    destruct (@skip_progress_unit w offset N1 N2)
      as [y [d [_ [_ [_ [Hprog [H0 H1]]]]]]].
    assert (Hchk : seekToCheck (VNum (skip_progress w offset)) = false).
    { apply seekToCheck_false. exists (y / d)%Qc. rewrite Hprog. auto. }
    rewrite (@skip_run w offset dr Hchk Hd). cbn [snd]. rewrite Hprog.
    pose proof (@afterSeek_within (y / d)%Qc dr w Hw H0 H1) as Ha.
    destruct Ha as [c' [d' [Ha1 [Ha2 Ha3]]]]. exists c', d'.
    destruct (afterSeek (Fin (y / d)) dr w). auto. }
  split; [exact Hseek|]. split; [exact Hskip|].
  split; [|split; [|split]].
  - intros seconds. unfold skipForward. unfold bind at 1. unfold get at 1.
    apply Hskip.
  - intros seconds. unfold skipBackward. unfold bind at 1. unfold get at 1.
    apply Hskip.
  - intros seconds. unfold setCurrentTime. unfold bind, get.
    destruct (geb seconds (toNumber (duration w))); apply Hseek.
  - unfold stop, pause, emit. unfold bind at 1. unfold modify at 1.
    match goal with
    | |- context [seekTo ?v ?w1] =>
        apply (@seekTo_within v w1 dr)
    end.
    + now destruct w.
    + destruct Hw as [c [d [H1 [H2 H3]]]]. exists c, d.
      destruct w. auto.
Qed.

(** ** The further properties at the example of the README *)

(** X1 at the example: the constructor returns and has built no drawer. *)
Lemma constructor_checks_in_order_witness :
  fst (constructor demoEnv demoUser (blank demoEnv)) = Return tt
  /\ drawer (snd (constructor demoEnv demoUser (blank demoEnv))) = None.
Proof.
  split; [reflexivity|].
  destruct (@constructor_checks_in_order demoEnv demoUser) as [_ [_ H]].
  destruct (H eq_refl) as [_ [_ [H1 _]]]. exact H1.
Defined.

(** X2 at [maxCanvasWidth: 101]. *)
Lemma constructor_maxCanvasWidth_messages_witness :
  resolvedContainer demoEnv oddWidthUser <> None
  /\ fst (constructor demoEnv oddWidthUser (blank demoEnv))
     = Throw (Error "maxCanvasWidth must be an even number").
Proof.
  assert (H0 : resolvedContainer demoEnv oddWidthUser <> None)
    by discriminate.
  split; [exact H0|].
  destruct (@constructor_maxCanvasWidth_messages demoEnv oddWidthUser 101
              H0 eq_refl) as [_ [H _]].
  apply H; [lia|reflexivity].
Defined.


(** X4 at the example instance. *)
Lemma drawBuffer_touches_only_log_and_cache_witness :
  initialised demoInstance /\ fst (drawBuffer demoInstance) = Return tt.
Proof.
  assert (Hi : initialised demoInstance).
  { split; [discriminate|]. intros F. discriminate F. }
  split; [exact Hi|].
  destruct (@drawBuffer_touches_only_log_and_cache demoInstance) as [H _].
  destruct (H Hi) as [w' [front [Hr _]]]. rewrite Hr. reflexivity.
Defined.

(** X5 at the example instance. *)
Lemma empty_resets_position_and_duration_witness :
  drawer demoInstance = Some (mkDrawer (of_Z 600) None)
  /\ duration (snd (empty demoInstance)) = Some zero.
Proof.
  split; [reflexivity|].
  destruct (@empty_resets_position_and_duration demoInstance
              (mkDrawer (of_Z 600) None) eq_refl)
    as [w' [Hr [_ [Hd _]]]].
  rewrite Hr. exact Hd.
Defined.

(** X6 at the example instance, before any [load]. *)
Lemma stop_seeks_to_start_witness :
  drawer demoInstance = Some (mkDrawer (of_Z 600) None)
  /\ duration demoInstance = None
  /\ curPosition (snd (stop demoInstance)) = Some NaN.
Proof.
  split; [reflexivity|]. split; [reflexivity|].
  destruct (@stop_seeks_to_start demoInstance) as [_ H].
  destruct (H (mkDrawer (of_Z 600) None) eq_refl)
    as [w' [Hr [_ [_ [_ [_ [_ Hn]]]]]]].
  rewrite Hr. exact (Hn eq_refl).
Defined.

(** X7 at [seekTo(1)] on an instance that was built but not initialised. *)
Lemma seekTo_without_drawer_leaves_override_witness :
  drawer demoConstructed = None
  /\ fst (seekTo (VNum one) demoConstructed)
     = Throw (TypeError "this.drawer is null").
Proof.
  split; [reflexivity|].
  assert (Hin : inUnitInterval (VNum one))
    by (apply seekToCheck_false; reflexivity).
  destruct (@seekTo_without_drawer_leaves_override (VNum one)
              demoConstructed Hin eq_refl) as [w' [Hr _]].
  rewrite Hr. reflexivity.
Defined.

(** X8 at [setCurrentTime(12)] after [load(peaks, 10)]. *)
Lemma setCurrentTime_clamps_to_duration_witness :
  drawer demoLoaded = Some (mkDrawer (of_Z 600) (Some zero))
  /\ duration demoLoaded = Some (Fin (Q2Qc 10))
  /\ (Q2Qc 0 < Q2Qc 10)%Qc
  /\ curPosition (snd (setCurrentTime (of_Z 12) demoLoaded))
     = Some (Fin (Q2Qc 10)).
Proof.
  split; [reflexivity|]. split; [reflexivity|]. split; [reflexivity|].
  destruct (@setCurrentTime_clamps_to_duration demoLoaded
              (mkDrawer (of_Z 600) (Some zero)) (Q2Qc 10)
              eq_refl eq_refl eq_refl) as [H _].
  destruct (H (of_Z 12) eq_refl) as [w' [Hr [Hc _]]].
  rewrite Hr. exact Hc.
Defined.

(** X9 at [skipForward()] on the example instance. *)
Lemma skipForward_and_skipBackward_default_to_skipLength_witness :
  notInfinite (duration demoInstance)
  /\ fst (skipForward None demoInstance) <> Throw seekToError.
Proof.
  assert (H1 : notInfinite (duration demoInstance)) by (split; discriminate).
  assert (H2 : notInfinite (curPosition demoInstance))
    by (split; discriminate).
  split; [exact H1|].
  destruct (@skipForward_and_skipBackward_default_to_skipLength demoInstance
              None) as [_ [_ [_ H]]].
  destruct (H H1 H2 "Error calling wavesurfer.seekTo, parameter must be a number between 0 and 1!"%string)
    as [Hf _].
  exact Hf.
Defined.

(** X10 at the example instance. *)
Lemma toggleScroll_twice_restores_params_witness :
  initialised demoInstance
  /\ params (snd (toggleScroll (snd (toggleScroll demoInstance))))
     = params demoInstance.
Proof.
  assert (Hi : initialised demoInstance).
  { split; [discriminate|]. intros F. discriminate F. }
  split; [exact Hi|].
  destruct (@toggleScroll_twice_restores_params demoInstance Hi)
    as [w1 [w2 [H1 [_ [H2 [Hp _]]]]]].
  rewrite H1. cbn [snd]. rewrite H2. exact Hp.
Defined.


(** X12 at the [load] of the README. *)
Lemma load_rewinds_witness :
  initialised demoInstance
  /\ curPosition (snd (load demoPeaks (Some one) (Some (of_Z 255))
                         demoInstance)) = Some zero.
Proof.
  assert (Hi : initialised demoInstance).
  { split; [discriminate|]. intros F. discriminate F. }
  split; [exact Hi|].
  destruct (@load_rewinds demoPeaks (Some one) (Some (of_Z 255))
              demoInstance eq_refl Hi) as [w' [Hr [Hc _]]].
  rewrite Hr. exact Hc.
Defined.

(** X13 at the example with partial rendering: two [load]s in a row. *)
Lemma second_load_at_same_width_draws_nothing_new_witness :
  peakCache demoPartialInstance = Some PeakCache.create
  /\ exists w1 w2,
       load demoPeaks (Some one) None demoPartialInstance = (Return tt, w1)
       /\ load demoPeaks (Some (of_Z 2)) None w1 = (Return tt, w2)
       /\ drawCalls (log w2)
          = drawCalls (log w1)
            ++ [DrawerDrawPeaks (Some (PeakStub (Fin (Q2Qc 600)))) zero
                  None None].
Proof.
  split; [reflexivity|].
  destruct (@second_load_at_same_width_draws_nothing_new demoPeaks demoPeaks
              (Some one) (Some (of_Z 2)) None None demoPartialInstance
              (mkDrawer (of_Z 600) None) PeakCache.create (Q2Qc 600)
              eq_refl eq_refl eq_refl eq_refl eq_refl eq_refl eq_refl
              eq_refl eq_refl (or_introl eq_refl))
    as [w1 [w2 [H1 [H2 [_ H4]]]]].
  exists w1, w2. auto.
Defined.

(** X14 at [seekTo(0.5)] after [load(peaks, 10)]. *)
Lemma seekTo_then_getPlayedPercents_witness :
  drawer demoLoaded = Some (mkDrawer (of_Z 600) (Some zero))
  /\ inUnitInterval (VNum (Fin (Q2Qc (1 # 2))))
  /\ exists r : Qc,
       fst (getPlayedPercents (snd (seekTo (VNum (Fin (Q2Qc (1 # 2))))
                                      demoLoaded)))
       = Return (Fin r)
       /\ (Q2Qc 0 <= r)%Qc /\ (r <= Q2Qc 1)%Qc.
Proof.
  assert (Hin : inUnitInterval (VNum (Fin (Q2Qc (1 # 2)))))
    by (apply seekToCheck_false; reflexivity).
  split; [reflexivity|]. split; [exact Hin|].
  destruct (@seekTo_then_getPlayedPercents (Q2Qc (1 # 2)) (Q2Qc 10)
              demoLoaded (mkDrawer (of_Z 600) (Some zero)) eq_refl Hin)
    as [w' [Hr [_ [H _]]]].
  rewrite Hr. cbn [snd].
  destruct (H eq_refl) as [_ [r [Hg Hb]]]; [discriminate|].
  exists r. rewrite Hg. split; [reflexivity|exact Hb].
Defined.

(** X15 at [seekAndCenter(2)] on the example instance. *)
Lemma seekAndCenter_recentres_after_the_seek_witness :
  drawer demoInstance = Some (mkDrawer (of_Z 600) None)
  /\ seekAndCenter (of_Z 2) demoInstance = (Throw seekToError, demoInstance).
Proof.
  split; [reflexivity|].
  destruct (@seekAndCenter_recentres_after_the_seek (of_Z 2) demoInstance
              (mkDrawer (of_Z 600) None) eq_refl) as [H _].
  apply H. apply seekToCheck_true. reflexivity.
Defined.

(** X16 at [skip(-3)] after [load(peaks, 10)]. *)
Lemma position_stays_within_duration_witness :
  positionWithinDuration demoLoaded
  /\ positionWithinDuration (snd (skip (Some (of_Z (-3))) demoLoaded)).
Proof.
  assert (Hw : positionWithinDuration demoLoaded).
  { exists (Q2Qc 0), (Q2Qc 10). repeat split; try reflexivity.
    - apply Qc_leb_le. reflexivity.
    - apply Qc_leb_le. reflexivity. }
  split; [exact Hw|].
  destruct (@position_stays_within_duration demoLoaded
              (mkDrawer (of_Z 600) (Some zero)) eq_refl Hw) as [_ [H _]].
  apply H.
Defined.
